(** * EvoAI agent: the five-stage pipeline of [graph_langgraph.py] and the
    domain tools of [tools.py], embedded as Rocq functions.

    Layout: [Text] (Python [str] as code points), [Float64] (binary64
    rounding), [Py] (exceptions, datetimes and what the program takes from the
    Python runtime), [Regex] (a backtracking matcher for the patterns given to
    [re.search]), [tools] and [graph_langgraph] (the two source files),
    [AsciiLib] and [Sample] (a runtime and data to run them on), then the
    theorems. *)

From Stdlib Require Import String Ascii ZArith NArith QArith Qround Qabs Qpower Bool List.
From Stdlib Require Import Lia Lqa Permutation Sorted RelationClasses.
From Stdlib Require SpecFloat.
Import ListNotations.

Local Open Scope Z_scope.

(* ===================================================================== *)
(** ** Python strings *)
(* ===================================================================== *)

Module Text.

(** A Python [str] is a sequence of Unicode code points. *)
Definition char := N.
Definition str := list char.

Definition bytes_of_string (s : string) : list N :=
  List.map N_of_ascii (list_ascii_of_string s).

(** UTF-8 decoding of the literals written in this file (well-formed input
    only; a truncated sequence ends the text). *)
Fixpoint utf8_decode (bs : list N) : str :=
  match bs with
  | [] => []
  | b :: r =>
    if (b <? 128)%N then b :: utf8_decode r
    else if (b <? 224)%N then
      match r with
      | c1 :: r' => ((b - 192) * 64 + (c1 - 128))%N :: utf8_decode r'
      | _ => []
      end
    else if (b <? 240)%N then
      match r with
      | c1 :: c2 :: r' =>
        ((b - 224) * 4096 + (c1 - 128) * 64 + (c2 - 128))%N :: utf8_decode r'
      | _ => []
      end
    else
      match r with
      | c1 :: c2 :: c3 :: r' =>
        ((b - 240) * 262144 + (c1 - 128) * 4096 + (c2 - 128) * 64 + (c3 - 128))%N
          :: utf8_decode r'
      | _ => []
      end
  end.

(** [u "..."] is the Python literal ["..."]. *)
Definition u (s : string) : str := utf8_decode (bytes_of_string s).

Definition chr (a : ascii) : char := N_of_ascii a.

(** [a == b] on [str]. *)
Fixpoint eqb (a b : str) : bool :=
  match a, b with
  | [], [] => true
  | x :: a', y :: b' => (x =? y)%N && eqb a' b'
  | _, _ => false
  end.

(** [s.startswith(p)]. *)
Fixpoint startswith (s p : str) : bool :=
  match p, s with
  | [], _ => true
  | x :: p', y :: s' => (x =? y)%N && startswith s' p'
  | _ :: _, [] => false
  end.

(** [k in s]: [k] occurs in [s] as a contiguous run. *)
Fixpoint contains (k s : str) : bool :=
  startswith s k ||
  match s with
  | [] => false
  | _ :: s' => contains k s'
  end.

(** [s.endswith(p)]. *)
Definition endswith (s p : str) : bool := startswith (rev s) (rev p).

(** [s[:-1]]. *)
Definition drop_last (s : str) : str := removelast s.

(** [sep.join(parts)]. *)
Fixpoint join (sep : str) (parts : list str) : str :=
  match parts with
  | [] => []
  | [p] => p
  | p :: ps => p ++ sep ++ join sep ps
  end.

(** [a < b] and [a <= b] on [str]: lexicographic on code points. *)
Fixpoint ltb (a b : str) : bool :=
  match a, b with
  | _, [] => false
  | [], _ :: _ => true
  | x :: a', y :: b' => (x <? y)%N || ((x =? y)%N && ltb a' b')
  end.

Definition leb (a b : str) : bool := negb (ltb b a).

(** Membership of a string in a list of strings ([x in {...}]). *)
Definition mem (x : str) (l : list str) : bool := existsb (eqb x) l.

(** Truthiness of a string: non-empty. *)
Definition truthy (s : str) : bool :=
  match s with [] => false | _ :: _ => true end.

(** [str(n)] for a non-negative integer. *)
Fixpoint digits_of_uint (d : Decimal.uint) : str :=
  match d with
  | Decimal.Nil => []
  | Decimal.D0 d' => 48%N :: digits_of_uint d'
  | Decimal.D1 d' => 49%N :: digits_of_uint d'
  | Decimal.D2 d' => 50%N :: digits_of_uint d'
  | Decimal.D3 d' => 51%N :: digits_of_uint d'
  | Decimal.D4 d' => 52%N :: digits_of_uint d'
  | Decimal.D5 d' => 53%N :: digits_of_uint d'
  | Decimal.D6 d' => 54%N :: digits_of_uint d'
  | Decimal.D7 d' => 55%N :: digits_of_uint d'
  | Decimal.D8 d' => 56%N :: digits_of_uint d'
  | Decimal.D9 d' => 57%N :: digits_of_uint d'
  end.

Definition str_of_N (n : N) : str :=
  match n with
  | N0 => [48%N]
  | Npos p => digits_of_uint (Pos.to_uint p)
  end.

(** [str(z)] for an integer. *)
Definition str_of_Z (z : Z) : str :=
  match z with
  | Zneg p => 45%N :: str_of_N (Npos p)
  | _ => str_of_N (Z.to_N z)
  end.

End Text.

(* ===================================================================== *)
(** ** Binary64 arithmetic *)
(* ===================================================================== *)

Module Float64.
Local Open Scope Q_scope.

(** A Python [float] that is not a NaN: its exact value, or an infinity.
    (No operation of the program produces a NaN.) *)
Inductive float :=
| Finite (q : Q)
| PosInf
| NegInf.

Definition pow2 (k : Z) : Q := Qpower 2 k.

(** Round to the nearest integer, ties to the even one. *)
Definition rne (x : Q) : Z :=
  let f := Qfloor x in
  match Qcompare (x - inject_Z f) (1 # 2) with
  | Lt => f
  | Gt => (f + 1)%Z
  | Eq => if Z.even f then f else (f + 1)%Z
  end.

(** [ilog2 x] is the [k] with [2^k <= x < 2^(k+1)], for [0 < x]. *)
Definition ilog2 (x : Q) : Z :=
  let k := (Z.log2 (Qnum x) - Z.log2 (Zpos (Qden x)))%Z in
  if Qle_bool (pow2 k) x then k else (k - 1)%Z.

(** Rounding of a positive real to binary64 (53 bits of precision, least
    exponent -1074, overflow at [2^1024]), to nearest, ties to even. *)
Definition round_pos (x : Q) : float :=
  let e := Z.max (ilog2 x - 52) (-1074)%Z in
  let v := inject_Z (rne (x / pow2 e)) * pow2 e in
  if Qle_bool (pow2 1024) v then PosInf else Finite (Qred v).

Definition neg (f : float) : float :=
  match f with
  | Finite q => Finite (Qred (- q))
  | PosInf => NegInf
  | NegInf => PosInf
  end.

(** The binary64 nearest to the real [x]. *)
Definition round (x : Q) : float :=
  match Qcompare x 0 with
  | Eq => Finite 0
  | Gt => round_pos x
  | Lt => neg (round_pos (- x))
  end.

(** [a / b] on Python integers, [0 < b]: the correctly rounded quotient. *)
Definition truediv (a b : Z) : float := round (inject_Z a / inject_Z b).


(** [float(n)] for an integer given in decimal. *)
Definition of_Z (n : Z) : float := round (inject_Z n).

(** [x / y] and [x + y] for a finite non-zero positive [y]. *)
Definition div (x : float) (y : Q) : float :=
  match x with
  | Finite q => round (q / y)
  | inf => inf
  end.

Definition add (x : float) (y : float) : float :=
  match x, y with
  | Finite a, Finite b => round (a + b)
  | Finite _, inf => inf
  | inf, _ => inf
  end.

(** [x <= y]. *)
Definition leb (x y : float) : bool :=
  match x, y with
  | NegInf, _ => true
  | _, PosInf => true
  | Finite a, Finite b => Qle_bool a b
  | _, _ => false
  end.

(** [x > q] for a number [x] read from JSON (exact value) and a float [q]. *)
Definition Q_gtb (x : Q) (y : float) : bool :=
  match y with
  | Finite b => negb (Qle_bool x b)
  | PosInf => false
  | NegInf => true
  end.

(** [f"{x:.1f}"]: the exact value rounded to one decimal, ties to even. *)
Definition format_1f (x : float) : Text.str :=
  match x with
  | Finite q =>
    let t := rne (Qabs q * 10) in
    (if Qle_bool 0 q then [] else [45%N]) ++
    Text.str_of_Z (t / 10)%Z ++ [46%N] ++ Text.str_of_Z (t mod 10)%Z
  | PosInf => Text.u "inf"
  | NegInf => Text.u "-inf"
  end.

End Float64.

(* ===================================================================== *)
(** ** The Python runtime *)
(* ===================================================================== *)

Module Py.
Import Text.

(** Exceptions that one invocation can raise. *)
Inductive error :=
| ValueError   (* datetime.fromisoformat on a malformed timestamp *)
| TypeError    (* subtraction of an offset-naive and an offset-aware datetime *)
| KeyError     (* state[key] on a key that was never written *)
| AttributeError (* a method call on None *)
| LLMError.    (* the text-generation call failed *)

Inductive result (A : Type) :=
| Ok (a : A)
| Raise (e : error).
Arguments Ok {A} a.
Arguments Raise {A} e.

Definition bind {A B : Type} (m : result A) (f : A -> result B) : result B :=
  match m with
  | Ok a => f a
  | Raise e => Raise e
  end.

(** [state[key]]: [KeyError] when the key is absent. *)
Definition getitem {A : Type} (o : option A) : result A :=
  match o with
  | Some a => Ok a
  | None => Raise KeyError
  end.

(** A [datetime]: its wall-clock fields as microseconds since
    0001-01-01T00:00:00, and the UTC offset (microseconds) when aware. *)
Record datetime := {
  wall_us : Z;
  utcoffset : option Z
}.

(** [(a - b)] as a count of microseconds; mixing naive and aware raises. *)
Definition sub_datetime (a b : datetime) : result Z :=
  match utcoffset a, utcoffset b with
  | Some oa, Some ob => Ok ((wall_us a - oa) - (wall_us b - ob))
  | None, None => Ok (wall_us a - wall_us b)
  | _, _ => Raise TypeError
  end.

(** [td.total_seconds()]: microseconds over [10**6], in binary64. *)
Definition total_seconds (us : Z) : Float64.float := Float64.truediv us 1000000.

(** What the program takes from the interpreter and its standard library:
    Unicode case mapping and character classes, ISO-8601 parsing and the
    printing of floats. *)
Class Lib := {
  lower : str -> str;                     (* str.lower() *)
  isdigit : char -> bool;                 (* the class \d *)
  digit_value : char -> Z;                (* the value of a \d character *)
  isspace : char -> bool;                 (* the class \s *)
  isword : char -> bool;                  (* the class \w, which decides \b *)
  fromisoformat : str -> option datetime; (* None: ValueError *)
  repr_float : Q -> str                   (* str(x) for a float x *)
}.

End Py.

Declare Scope py_scope.
Notation "x <- m ;; k" := (Py.bind m (fun x => k))
  (at level 61, m at next level, right associativity) : py_scope.

(* ===================================================================== *)
(** ** Regular expressions: the backtracking matcher of [re] *)
(* ===================================================================== *)

Module Regex.
Import Text.

Inductive regex :=
| Eps
| Chr (a : char)                          (* a literal character *)
| Cls (p : char -> bool)                  (* a character class *)
| Bnd (w : char -> bool)                  (* \b, for the word class w *)
| Cat (r1 r2 : regex)
| Rep (r : regex) (lo : nat) (hi : option nat)  (* greedy r{lo,hi} *)
| Grp (r : regex).                        (* the capturing group 1 *)

(** The position of the matcher: the character before it, the text after
    it, and what group 1 holds. *)
Record cursor := {
  prev : option char;
  rest : str;
  group1 : option str
}.

Definition step (x : char) (s : str) (c : cursor) : cursor :=
  {| prev := Some x; rest := s; group1 := group1 c |}.

Definition at_boundary (w : char -> bool) (c : cursor) : bool :=
  xorb (match prev c with Some x => w x | None => false end)
       (match rest c with x :: _ => w x | [] => false end).

Definition below (n : nat) (hi : option nat) : bool :=
  match hi with
  | Some h => (n <? h)%nat
  | None => true
  end.

(** A greedy repetition of [body], [n] iterations done: one more when the
    bound allows it, the body matches and the position moved (a check that
    bounds the iterations; no repeated pattern of this program matches the
    empty text); failing that, or when the rest fails after it, stop here
    if [lo] iterations are done. *)
Fixpoint rep_loop (body : cursor -> (cursor -> option cursor) -> option cursor)
    (lo : nat) (hi : option nat) (k : cursor -> option cursor)
    (fuel n : nat) (c : cursor) {struct fuel} : option cursor :=
  let stop := if (lo <=? n)%nat then k c else None in
  match fuel with
  | O => stop
  | S fuel' =>
    let more :=
      if below n hi then
        body c (fun c' =>
          if (length (rest c') <? length (rest c))%nat
          then rep_loop body lo hi k fuel' (S n) c' else None)
      else None in
    match more with
    | Some m => Some m
    | None => stop
    end
  end.

(** [run r c k]: match [r] at [c] and hand the position reached to [k];
    alternatives are tried in the order of [re] (a repetition takes as many
    iterations as it can, then gives them back one by one). *)
Fixpoint run (r : regex) (c : cursor) (k : cursor -> option cursor) {struct r}
  : option cursor :=
  match r with
  | Eps => k c
  | Chr a =>
    match rest c with
    | x :: s => if (x =? a)%N then k (step x s c) else None
    | [] => None
    end
  | Cls p =>
    match rest c with
    | x :: s => if p x then k (step x s c) else None
    | [] => None
    end
  | Bnd w => if at_boundary w c then k c else None
  | Cat r1 r2 => run r1 c (fun c' => run r2 c' k)
  | Rep r' lo hi => rep_loop (run r') lo hi k (length (rest c)) O c
  | Grp r' =>
    run r' c (fun c' =>
      k {| prev := prev c'; rest := rest c';
           group1 := Some (firstn (length (rest c) - length (rest c')) (rest c)) |})
  end.

(** A match: the whole matched text, group 1, and where it ended. *)
Record rmatch := {
  group0 : str;
  group : option str;
  after : cursor
}.

(** [re.search]: the match at the leftmost position that has one. *)
Fixpoint scan (r : regex) (p : option char) (s : str) : option rmatch :=
  match run r {| prev := p; rest := s; group1 := None |} Some with
  | Some c =>
    Some {| group0 := firstn (length s - length (rest c)) s;
            group := group1 c; after := c |}
  | None =>
    match s with
    | [] => None
    | x :: s' => scan r (Some x) s'
    end
  end.

Definition search (r : regex) (s : str) : option rmatch := scan r None s.

(** [m.group(1) if m else None]. *)
Definition search_group1 (r : regex) (s : str) : option str :=
  match search r s with
  | Some m => group m
  | None => None
  end.

(** [re.findall] for a pattern without groups that matches no empty text:
    the successive matches, each search resuming where the last ended. *)
Fixpoint findall_from (fuel : nat) (r : regex) (p : option char) (s : str)
  : list str :=
  match fuel with
  | O => []
  | S fuel' =>
    match scan r p s with
    | None => []
    | Some m => group0 m :: findall_from fuel' r (prev (after m)) (rest (after m))
    end
  end.

Definition findall (r : regex) (s : str) : list str :=
  findall_from (S (length s)) r None s.

(** Pattern syntax. *)
Fixpoint cat (rs : list regex) : regex :=
  match rs with
  | [] => Eps
  | [r] => r
  | r :: rs' => Cat r (cat rs')
  end.

Definition lit (s : str) : regex := cat (List.map Chr s).
Definition star (r : regex) : regex := Rep r 0 None.
Definition plus (r : regex) : regex := Rep r 1 None.
Definition opt (r : regex) : regex := Rep r 0 (Some 1%nat).
Definition at_least (n : nat) (r : regex) : regex := Rep r n None.
Definition between (lo hi : nat) (r : regex) : regex := Rep r lo (Some hi).

(** Character ranges and sets. *)
Definition in_range (a b : ascii) (x : char) : bool :=
  (N_of_ascii a <=? x)%N && (x <=? N_of_ascii b)%N.
Definition one_of (s : str) (x : char) : bool := existsb (N.eqb x) s.

End Regex.

(* ===================================================================== *)
(** ** tools.py *)
(* ===================================================================== *)

Module tools.
Import Text Py Regex.
Local Open Scope py_scope.

(** A JSON number: a Python [int] or a Python [float] (by its exact value). *)
Inductive number :=
| Int (z : Z)
| Float (q : Q).

Definition number_value (n : number) : Q :=
  match n with
  | Int z => inject_Z z
  | Float q => q
  end.

(** Modelled from the spec: one entry of [data/products.json], a file that
    is not among the sources (schema: id, title, price, sizes, tags, color;
    ids unique, price a number).  Ids are taken to be strings, which the sort
    compares code point by code point.  [tags] and [color] are read with
    [item.get(..., [])] and [item.get(..., "")]: an absent key is the empty
    list, respectively the empty string. *)
Record Product := {
  id : str;
  title : str;
  price : number;
  sizes : list str;
  tags : list str;
  color : str
}.

(** Modelled from the spec: one entry of [data/orders.json], a file that is
    not among the sources (schema: order_id, email, created_at as an
    ISO-8601 text). *)
Record Order := {
  order_id : str;
  email : str;
  created_at : str
}.

(** What the tools read from outside the program: the process environment,
    the system clock (microseconds, UTC) and the two data files. *)
Record World := {
  getenv : str -> option str;
  clock_us : Z;
  products_json : list Product;
  orders_json : list Order
}.

Record Decision := {
  cancel_allowed : bool;
  reason : str
}.

Record SizeAdvice := {
  recommended : str;
  rationale : str
}.

Record Eta := {
  zip : str;
  eta_window : str
}.

Section WithLib.
Context {L : Lib}.

Definition parse_iso (ts : str) : result datetime :=
  let ts := if endswith ts (u "Z") then drop_last ts ++ u "+00:00" else ts in
  match fromisoformat ts with
  | Some d => Ok d
  | None => Raise ValueError
  end.

Definition utcnow (w : World) : result datetime :=
  match getenv w (u "NOW_ISO") with
  | Some (c :: now_env) => parse_iso (c :: now_env)
  | _ => Ok {| wall_us := clock_us w; utcoffset := Some 0 |}
  end.

(** The pattern "[a-z0-9]+". *)
Definition token_re : regex :=
  plus (Cls (fun x => in_range "a" "z" x || in_range "0" "9" x)).

Definition stopwords : list str :=
  [u "under"; u "less"; u "budget"; u "m"; u "l"; u "xl"; u "s"; u "eta";
   u "to"; u "guest"; u "between"; u "im"; u "i"; u "zip"].

(** [set(a).issubset(set(b))]. *)
Definition issubset (a b : list str) : bool :=
  forallb (fun x => mem x b) a.

(** The closure [matches] of [product_search]. *)
Definition matches (price_max : option Float64.float) (tags_ : option (list str))
    (tokens : list str) (item : Product) : bool :=
  if match price_max with
     | Some pm => Float64.Q_gtb (number_value (price item)) pm
     | None => false
     end
  then false
  else
    match tags_ with
    | Some (t :: ts) =>
      issubset (List.map lower (t :: ts)) (List.map lower (tags item))
    | _ =>
      match tokens with
      | _ :: _ =>
        let hay :=
          lower (join (u " ") [title item; join (u " ") (tags item); color item]) in
        let meaningful := filter (fun tok => negb (mem tok stopwords)) tokens in
        match meaningful with
        | _ :: _ => existsb (fun tok => contains tok hay) meaningful
        | [] => true
        end
      | [] => true
      end
    end.

(** [(a.price, a.id) < (b.price, b.id)] on the tuples the sort compares. *)
Definition key_ltb (a b : Product) : bool :=
  let pa := number_value (price a) in
  let pb := number_value (price b) in
  if Qeq_bool pa pb then Text.ltb (id a) (id b)
  else negb (Qle_bool pb pa).

(** [list.sort(key=...)] is stable: an element goes in front of the first
    one that is not smaller than it. *)
Fixpoint insert_sorted (x : Product) (l : list Product) : list Product :=
  match l with
  | [] => [x]
  | y :: l' => if key_ltb y x then y :: insert_sorted x l' else x :: y :: l'
  end.

Definition sort_by_price_id (l : list Product) : list Product :=
  fold_right insert_sorted [] l.

Definition product_search (w : World) (query : str)
    (price_max : option Float64.float) (tags_ : option (list str))
  : list Product :=
  let items := products_json w in
  let q := lower query in
  let tokens := findall token_re q in
  let filtered := filter (matches price_max tags_ tokens) items in
  sort_by_price_id filtered.

Definition size_recommender (user_inputs : str) : SizeAdvice :=
  let text := lower user_inputs in
  if contains (u "loose") text || contains (u "oversized") text
  then {| recommended := u "L";
          rationale := u "You prefer a looser fit; L should feel roomier. Choose M for a snugger fit." |}
  else {| recommended := u "M";
          rationale := u "You mentioned you're between M and L; we suggest M for a closer fit or L if you prefer a roomier feel." |}.

Definition eta (zip_code : str) : Eta :=
  let z := zip_code in
  let window :=
    if startswith z (u "56") then u "3–5 business days"
    else if startswith z (u "10") || startswith z (u "11") || startswith z (u "12")
    then u "2–3 business days"
    else u "2–5 business days" in
  {| zip := z; eta_window := window |}.

Definition order_lookup (w : World) (order_id_ email_ : str) : option Order :=
  find (fun o => Text.eqb (lower (order_id o)) (lower order_id_)
                 && Text.eqb (lower (email o)) (lower email_))
       (orders_json w).

(** [delta = (now - created).total_seconds() / 60.0] for a span of [td]
    microseconds. *)
Definition delta (td : Z) : Float64.float := Float64.div (total_seconds td) 60.

(** The right-hand side of [delta <= 60.0 + 1e-9]. *)
Definition cancel_limit : Float64.float :=
  Float64.add (Float64.Finite 60) (Float64.truediv 1 1000000000).

Definition order_cancel (w : World) (order_id_ : str) (timestamp_iso : option str)
  : result Decision :=
  match find (fun o => Text.eqb (lower (order_id o)) (lower order_id_))
             (orders_json w) with
  | None => Ok {| cancel_allowed := false; reason := u "order_not_found" |}
  | Some order =>
    created <- parse_iso (created_at order) ;;
    now <- match timestamp_iso with
           | Some (c :: ts) => parse_iso (c :: ts)
           | _ => utcnow w
           end ;;
    td <- sub_datetime now created ;;
    if Float64.leb (delta td) cancel_limit
    then Ok {| cancel_allowed := true;
               reason := u "within_60_min (" ++ Float64.format_1f (delta td)
                         ++ u " min)" |}
    else Ok {| cancel_allowed := false;
               reason := u ">60 min (" ++ Float64.format_1f (delta td)
                         ++ u " min)" |}
  end.

End WithLib.

End tools.

(* ===================================================================== *)
(** ** graph_langgraph.py *)
(* ===================================================================== *)

Module graph_langgraph.
Import Text Py Regex.
Local Open Scope py_scope.

Inductive Intent :=
| product_assist
| order_help
| other.

Definition Intent_eqb (a b : Intent) : bool :=
  match a, b with
  | product_assist, product_assist => true
  | order_help, order_help => true
  | other, other => true
  | _, _ => false
  end.

(** An entry of the evidence log: a shown product, or an order lookup. *)
Inductive Evidence :=
| ProductEvidence (id title : str) (price : tools.number) (sizes : list str)
| OrderEvidence (order_id email : option str) (found : bool).

(** [AgentState] is a [TypedDict] with [total=False]: every key but the
    seeded [prompt] may be absent ([None] here); the keys whose value may be
    Python's [None] hold an option of their own. *)
Record AgentState := {
  prompt : str;
  intent : option Intent;
  tools_called : option (list str);
  evidence : option (list Evidence);
  policy_decision : option (option tools.Decision);
  final_message : option str;
  order : option (option tools.Order);
  order_id : option (option str);
  email : option (option str);
  products : option (list tools.Product);
  size : option tools.SizeAdvice;
  eta : option tools.Eta
}.

(** [state[key] = v]. *)
Definition set_intent (v : Intent) (s : AgentState) : AgentState :=
  {| prompt := prompt s;
     intent := Some v;
     tools_called := tools_called s;
     evidence := evidence s;
     policy_decision := policy_decision s;
     final_message := final_message s;
     order := order s;
     order_id := order_id s;
     email := email s;
     products := products s;
     size := size s;
     eta := eta s |}.

Definition set_tools_called (v : list str) (s : AgentState) : AgentState :=
  {| prompt := prompt s;
     intent := intent s;
     tools_called := Some v;
     evidence := evidence s;
     policy_decision := policy_decision s;
     final_message := final_message s;
     order := order s;
     order_id := order_id s;
     email := email s;
     products := products s;
     size := size s;
     eta := eta s |}.

Definition set_evidence (v : list Evidence) (s : AgentState) : AgentState :=
  {| prompt := prompt s;
     intent := intent s;
     tools_called := tools_called s;
     evidence := Some v;
     policy_decision := policy_decision s;
     final_message := final_message s;
     order := order s;
     order_id := order_id s;
     email := email s;
     products := products s;
     size := size s;
     eta := eta s |}.

Definition set_policy_decision (v : option tools.Decision) (s : AgentState) : AgentState :=
  {| prompt := prompt s;
     intent := intent s;
     tools_called := tools_called s;
     evidence := evidence s;
     policy_decision := Some v;
     final_message := final_message s;
     order := order s;
     order_id := order_id s;
     email := email s;
     products := products s;
     size := size s;
     eta := eta s |}.

Definition set_final_message (v : str) (s : AgentState) : AgentState :=
  {| prompt := prompt s;
     intent := intent s;
     tools_called := tools_called s;
     evidence := evidence s;
     policy_decision := policy_decision s;
     final_message := Some v;
     order := order s;
     order_id := order_id s;
     email := email s;
     products := products s;
     size := size s;
     eta := eta s |}.

Definition set_order (v : option tools.Order) (s : AgentState) : AgentState :=
  {| prompt := prompt s;
     intent := intent s;
     tools_called := tools_called s;
     evidence := evidence s;
     policy_decision := policy_decision s;
     final_message := final_message s;
     order := Some v;
     order_id := order_id s;
     email := email s;
     products := products s;
     size := size s;
     eta := eta s |}.

Definition set_order_id (v : option str) (s : AgentState) : AgentState :=
  {| prompt := prompt s;
     intent := intent s;
     tools_called := tools_called s;
     evidence := evidence s;
     policy_decision := policy_decision s;
     final_message := final_message s;
     order := order s;
     order_id := Some v;
     email := email s;
     products := products s;
     size := size s;
     eta := eta s |}.

Definition set_email (v : option str) (s : AgentState) : AgentState :=
  {| prompt := prompt s;
     intent := intent s;
     tools_called := tools_called s;
     evidence := evidence s;
     policy_decision := policy_decision s;
     final_message := final_message s;
     order := order s;
     order_id := order_id s;
     email := Some v;
     products := products s;
     size := size s;
     eta := eta s |}.

Definition set_products (v : list tools.Product) (s : AgentState) : AgentState :=
  {| prompt := prompt s;
     intent := intent s;
     tools_called := tools_called s;
     evidence := evidence s;
     policy_decision := policy_decision s;
     final_message := final_message s;
     order := order s;
     order_id := order_id s;
     email := email s;
     products := Some v;
     size := size s;
     eta := eta s |}.

Definition set_size (v : tools.SizeAdvice) (s : AgentState) : AgentState :=
  {| prompt := prompt s;
     intent := intent s;
     tools_called := tools_called s;
     evidence := evidence s;
     policy_decision := policy_decision s;
     final_message := final_message s;
     order := order s;
     order_id := order_id s;
     email := email s;
     products := products s;
     size := Some v;
     eta := eta s |}.

Definition set_eta (v : tools.Eta) (s : AgentState) : AgentState :=
  {| prompt := prompt s;
     intent := intent s;
     tools_called := tools_called s;
     evidence := evidence s;
     policy_decision := policy_decision s;
     final_message := final_message s;
     order := order s;
     order_id := order_id s;
     email := email s;
     products := products s;
     size := size s;
     eta := Some v |}.

(** The state [{"prompt": prompt}]. *)
Definition initial_state (p : str) : AgentState :=
  {| prompt := p; intent := None; tools_called := None; evidence := None;
     policy_decision := None; final_message := None; order := None;
     order_id := None; email := None; products := None; size := None;
     eta := None |}.

(** The context handed to the text-generation service by the responder. *)
Record Context := {
  ctx_intent : Intent;
  ctx_evidence : list Evidence;
  ctx_policy_decision : option tools.Decision;
  ctx_products : option (list tools.Product);
  ctx_size : option tools.SizeAdvice;
  ctx_eta : option tools.Eta;
  ctx_order : option tools.Order
}.

(** The text-generation service ([call_llm], a remote call that answers or
    fails) and the serialisation [json.dumps(context, indent=2)]. *)
Record LLM := {
  call_llm : str -> str -> result str;
  json_dumps : Context -> str
}.

Definition nl : str := [10%N].

Definition SYSTEM : str :=
  u "You are EvoAI Agent. Follow policy strictly: product assist vs order help, 60-min cancel rule, no fake discounts. Be concise.".

Definition env_truthy (w : tools.World) (name : str) : bool :=
  match tools.getenv w name with
  | Some v => truthy v
  | None => false
  end.

Definition use_llm (w : tools.World) : bool :=
  let has_any_key :=
    env_truthy w (u "OPENAI_API_KEY") || env_truthy w (u "GEMINI_API_KEY") in
  has_any_key && negb (env_truthy w (u "USE_MOCK_LLM")).

Definition order_keywords : list str :=
  [u "cancel order"; u "order status"; u "order help"; u "where is my order";
   u "order "; u "refund"].

Definition product_keywords : list str :=
  [u "dress"; u "product"; u "wedding"; u "midi"; u "size"; u "eta"; u "zip"].

(** [any(k in low for k in keywords)]. *)
Definition any_in (keywords : list str) (low : str) : bool :=
  existsb (fun k => contains k low) keywords.

Section WithLib.
Context {L : Lib}.

(** The deterministic branch of the router. *)
Definition classify (p : str) : Intent :=
  let low := lower p in
  if any_in order_keywords low then order_help
  else if any_in product_keywords low then product_assist
  else other.

Definition router_node (w : tools.World) (m : LLM) (state : AgentState)
  : result AgentState :=
  let p := prompt state in
  intent_ <-
    (if use_llm w then
       text <- call_llm m SYSTEM
                 (u "Classify into one of: product_assist, order_help, other"
                  ++ nl ++ u "User: " ++ p) ;;
       Ok (if contains (u "product") text then product_assist
           else if contains (u "order") text then order_help
           else other)
     else Ok (classify p)) ;;
  Ok (set_evidence [] (set_tools_called [] (set_intent intent_ state))).

(** The four patterns of the tool selector. *)
Definition letter (x : char) : bool := in_range "A" "Z" x || in_range "a" "z" x.
Definition alnum (x : char) : bool := letter x || in_range "0" "9" x.

(** The pattern "under\s*\$?\s*(\d+)". *)
Definition price_re : regex :=
  cat [lit (u "under"); star (Cls isspace); opt (Chr (chr "$"));
       star (Cls isspace); Grp (plus (Cls isdigit))].

(** The pattern "(\b\d{5,6}\b)". *)
Definition zip_re : regex :=
  Grp (cat [Bnd isword; between 5 6 (Cls isdigit); Bnd isword]).

(** The pattern of the order id: the optional non-capturing group
    "order\s*", then the group "([A-Za-z]\d{4,})". *)
Definition order_re : regex :=
  cat [opt (cat [lit (u "order"); star (Cls isspace)]);
       Grp (cat [Cls letter; at_least 4 (Cls isdigit)])].

(** The pattern "([A-Za-z0-9._%+-]+@[A-Za-z0-9.-]+\.[A-Za-z]{2,})". *)
Definition email_re : regex :=
  Grp (cat [plus (Cls (fun x => alnum x || one_of (u "._%+-") x));
            Chr (chr "@");
            plus (Cls (fun x => alnum x || one_of (u ".-") x));
            Chr (chr ".");
            at_least 2 (Cls letter)]).

(** [float(s)] for a run of decimal digits. *)
Definition float_of_digits (s : str) : Float64.float :=
  Float64.of_Z (fold_left (fun acc c => acc * 10 + digit_value c) s 0).

(** The locals [price_cap], [tags] and the postal code of the product branch. *)
Definition price_cap (prompt_ : str) : option Float64.float :=
  match search_group1 price_re (lower prompt_) with
  | Some digits => Some (float_of_digits digits)
  | None => None
  end.

Definition tags (prompt_ : str) : list str :=
  (if contains (u "wedding") (lower prompt_) then [u "wedding"] else []) ++
  (if contains (u "midi") (lower prompt_) then [u "midi"] else []).

Definition zip_code (prompt_ : str) : str :=
  match search_group1 zip_re prompt_ with
  | Some z => z
  | None => u "00000"
  end.

(** The locals [oid], [email] and [order] of the order branch. *)
Definition oid (prompt_ : str) : option str := search_group1 order_re prompt_.

Definition email_of (prompt_ : str) : option str := search_group1 email_re prompt_.

Definition order_of (w : tools.World) (prompt_ : str) : option tools.Order :=
  match oid prompt_, email_of prompt_ with
  | Some o, Some e =>
    if truthy o && truthy e then tools.order_lookup w o e else None
  | _, _ => None
  end.

(** [x or None] for a list. *)
Definition or_None {A : Type} (l : list A) : option (list A) :=
  match l with
  | [] => None
  | _ :: _ => Some l
  end.

Definition product_evidence (p : tools.Product) : Evidence :=
  ProductEvidence (tools.id p) (tools.title p) (tools.price p) (tools.sizes p).

Definition tool_selector_node (w : tools.World) (state : AgentState)
  : result AgentState :=
  intent_ <- getitem (intent state) ;;
  let prompt_ := prompt state in
  tools_called_ <- getitem (tools_called state) ;;
  match intent_ with
  | product_assist =>
    let products_ :=
      tools.product_search w prompt_ (price_cap prompt_) (or_None (tags prompt_)) in
    let tools_called_ := tools_called_ ++ [u "product_search"] in
    let size_ := tools.size_recommender prompt_ in
    let tools_called_ := tools_called_ ++ [u "size_recommender"] in
    let eta_ := tools.eta (zip_code prompt_) in
    let tools_called_ := tools_called_ ++ [u "eta"] in
    let picks := firstn 2 products_ in
    let state := set_eta eta_ (set_size size_ (set_products picks state)) in
    evidence_ <- getitem (evidence state) ;;
    let state := set_evidence (evidence_ ++ List.map product_evidence picks) state in
    Ok (set_tools_called tools_called_ state)
  | order_help =>
    let oid_ := oid prompt_ in
    let email_ := email_of prompt_ in
    let order_ := order_of w prompt_ in
    let tools_called_ := tools_called_ ++ [u "order_lookup"] in
    let state := set_order order_ (set_email email_ (set_order_id oid_ state)) in
    evidence_ <- getitem (evidence state) ;;
    let found := match order_ with Some _ => true | None => false end in
    let state := set_evidence (evidence_ ++ [OrderEvidence oid_ email_ found]) state in
    Ok (set_tools_called tools_called_ state)
  | other => Ok (set_tools_called tools_called_ state)
  end.

Definition policy_guard_node (w : tools.World) (state : AgentState)
  : result AgentState :=
  intent_ <- getitem (intent state) ;;
  if negb (Intent_eqb intent_ order_help) then Ok (set_policy_decision None state)
  else
    match order state with
    | Some (Some order_) =>
      decision <- tools.order_cancel w (tools.order_id order_) None ;;
      Ok (set_policy_decision (Some decision) state)
    | _ =>
      Ok (set_policy_decision
            (Some {| tools.cancel_allowed := false;
                     tools.reason := u "order_not_found_or_missing_credentials" |})
            state)
    end.

(** [state.get(key)] for a key whose value may be [None]. *)
Definition get_nullable {A : Type} (o : option (option A)) : option A :=
  match o with
  | Some v => v
  | None => None
  end.

Definition instruction : str :=
  u "Compose the final user reply. Do not invent facts; only use fields in context. " ++
  u "If product_assist: list up to 2 items with title, price, sizes; give size tip and ETA. " ++
  u "If order_help and cancel_allowed: confirm cancellation. " ++
  u "If blocked: explain 60-min policy and offer at least two alternatives. " ++
  u "If other: refuse discount code creation and suggest perks.".

(** [str(x)] for a JSON number. *)
Definition str_of_number (n : tools.number) : str :=
  match n with
  | tools.Int z => str_of_Z z
  | tools.Float q => repr_float q
  end.

Definition product_line (it : tools.Product) : str :=
  u "• " ++ tools.title it ++ u " — $" ++ str_of_number (tools.price it) ++
  u " | sizes: " ++ join (u ", ") (tools.sizes it).

Definition other_message : str :=
  u "I can’t generate custom discount codes. You can still save by:" ++ nl ++
  u "• Joining our newsletter for first-order perks" ++ nl ++
  u "• Watching seasonal sales on the site" ++ nl ++
  u "• Building a wishlist so we alert you if prices drop".

Definition not_verified_message : str :=
  u "I couldn’t verify that order. Please double-check the order ID and email, or I can hand you to support.".

Definition cancelled_message (order_ : tools.Order) : str :=
  u "✅ Order " ++ tools.order_id order_ ++
  u " is cancelled successfully. You’ll see a confirmation email shortly.".

Definition blocked_message (order_ : tools.Order) (reason_ : str) : str :=
  u "❌ I can’t cancel order " ++ tools.order_id order_ ++
  u " because our policy allows cancellations only within 60 minutes of purchase (" ++
  reason_ ++ u ")." ++ nl ++
  u "Next best options:" ++ nl ++
  u "• Edit the delivery address (if the carrier hasn’t picked it up)" ++ nl ++
  u "• Convert to store credit after delivery" ++ nl ++
  u "• Or I can hand you off to a human agent".

(** The branch of the responder that delegates the reply. *)
Definition compose_llm (m : LLM) (intent_ : Intent) (state : AgentState)
  : result str :=
  let context :=
    json_dumps m
      {| ctx_intent := intent_;
         ctx_evidence := match evidence state with Some e => e | None => [] end;
         ctx_policy_decision := get_nullable (policy_decision state);
         ctx_products := products state;
         ctx_size := size state;
         ctx_eta := eta state;
         ctx_order := get_nullable (order state) |} in
  call_llm m SYSTEM (instruction ++ nl ++ nl ++ u "Context:" ++ nl ++ context).

(** The branch marked "deterministic fallback". *)
Definition compose_deterministic (intent_ : Intent) (state : AgentState)
  : result str :=
  match intent_ with
  | product_assist =>
    let picks := match products state with Some l => l | None => [] end in
    match picks with
    | [] =>
      Ok (u "I couldn't find items that match your filters. If you can relax the budget or tags, I can search again.")
    | _ :: _ =>
      let lines := List.map product_line picks in
      let rec := match size state with
                 | Some sz => tools.recommended sz
                 | None => u "M"
                 end in
      let rationale_ := match size state with
                        | Some sz => tools.rationale sz
                        | None => []
                        end in
      let eta_text := match eta state with
                      | Some e => tools.eta_window e
                      | None => u "2–5 business days"
                      end in
      let zip_ := match eta state with
                  | Some e => tools.zip e
                  | None => u "None"
                  end in
      Ok (u "Here are two options under your budget:" ++ nl ++ join nl lines ++
          nl ++ nl ++ u "Size tip: go **" ++ rec ++ u "**. " ++ rationale_ ++ nl ++
          u "ETA to " ++ zip_ ++ u ": " ++ eta_text ++ u ".")
    end
  | order_help =>
    match get_nullable (order state) with
    | None => Ok not_verified_message
    | Some order_ =>
      match policy_decision state with
      | Some None => Raise AttributeError
      | Some (Some decision) =>
        if tools.cancel_allowed decision then Ok (cancelled_message order_)
        else Ok (blocked_message order_ (tools.reason decision))
      | None => Ok (blocked_message order_ (u ">60 min"))
      end
    end
  | other => Ok other_message
  end.

Definition responder_node (w : tools.World) (m : LLM) (state : AgentState)
  : result AgentState :=
  intent_ <- getitem (intent state) ;;
  msg <- (if use_llm w then compose_llm m intent_ state
          else compose_deterministic intent_ state) ;;
  Ok (set_final_message msg state).

Definition trace_node (state : AgentState) : result AgentState := Ok state.

(** [build_graph().invoke]: the five nodes on the edges
    router, tool_selector, policy_guard, responder, trace, END. *)
Definition invoke (w : tools.World) (m : LLM) (input : AgentState)
  : result AgentState :=
  s1 <- router_node w m input ;;
  s2 <- tool_selector_node w s1 ;;
  s3 <- policy_guard_node w s2 ;;
  s4 <- responder_node w m s3 ;;
  trace_node s4.

Record Trace := {
  trace_intent : option Intent;
  trace_tools_called : list str;
  trace_evidence : list Evidence;
  trace_policy_decision : option tools.Decision;
  trace_final_message : str
}.

Record Reply := {
  trace : Trace;
  reply : str
}.

Definition get_or {A : Type} (o : option A) (default : A) : A :=
  match o with
  | Some a => a
  | None => default
  end.

Definition run_agent (w : tools.World) (m : LLM) (prompt_ : str) : result Reply :=
  out <- invoke w m (initial_state prompt_) ;;
  Ok {| trace :=
          {| trace_intent := intent out;
             trace_tools_called := get_or (tools_called out) [];
             trace_evidence := get_or (evidence out) [];
             trace_policy_decision := get_nullable (policy_decision out);
             trace_final_message := get_or (final_message out) [] |};
        reply := get_or (final_message out) [] |}.

End WithLib.

End graph_langgraph.

(* ===================================================================== *)
(** ** The runtime on ASCII text *)
(* ===================================================================== *)

(** An instance of [Py.Lib] that computes: case mapping and character
    classes as Python has them on the ASCII range (a character outside it is
    left as it is and belongs to no class), timestamps in the format
    [YYYY-MM-DD*HH[:MM[:SS[.fff[fff]]]][+HH:MM[:SS]]] that [isoformat] emits,
    and [repr] in positional notation (Python switches to exponent notation
    below [1e-4] and from [1e16]). *)
Module AsciiLib.
Import Text Py.

Definition lower_char (c : char) : char :=
  if (65 <=? c)%N && (c <=? 90)%N then (c + 32)%N else c.

Definition lower (s : str) : str := List.map lower_char s.

Definition isdigit (c : char) : bool := (48 <=? c)%N && (c <=? 57)%N.

Definition digit_value (c : char) : Z := Z.of_N c - 48.

Definition isspace (c : char) : bool :=
  (c =? 32)%N || ((9 <=? c)%N && (c <=? 13)%N).

Definition isword (c : char) : bool :=
  isdigit c || ((65 <=? c)%N && (c <=? 90)%N) || ((97 <=? c)%N && (c <=? 122)%N)
  || (c =? 95)%N.

(** Exactly [n] decimal digits. *)
Fixpoint take_digits (n : nat) (s : str) (acc : Z) : option (Z * str) :=
  match n with
  | O => Some (acc, s)
  | S n' =>
    match s with
    | c :: s' =>
      if isdigit c then take_digits n' s' (acc * 10 + digit_value c) else None
    | [] => None
    end
  end.

Definition expect (a : ascii) (s : str) : option str :=
  match s with
  | c :: s' => if (c =? chr a)%N then Some s' else None
  | [] => None
  end.

Definition is_leap (y : Z) : bool :=
  ((y mod 4 =? 0) && negb (y mod 100 =? 0)) || (y mod 400 =? 0).

Definition days_in_month (y m : Z) : Z :=
  if m =? 2 then (if is_leap y then 29 else 28)
  else if (m =? 4) || (m =? 6) || (m =? 9) || (m =? 11) then 30
  else 31.

(** Days from 0001-01-01 to the given date of the proleptic Gregorian
    calendar. *)
Definition days_from_civil (y m d : Z) : Z :=
  let y' := if m <=? 2 then y - 1 else y in
  let era := y' / 400 in
  let yoe := y' - era * 400 in
  let doy := (153 * (if m <=? 2 then m + 9 else m - 3) + 2) / 5 + d - 1 in
  let doe := yoe * 365 + yoe / 4 - yoe / 100 + doy in
  era * 146097 + doe - 306.

(** [HH[:MM[:SS[.fff[fff]]]]] as microseconds, and what follows. *)
Definition parse_clock (s : str) : option (Z * str) :=
  match take_digits 2 s 0 with
  | None => None
  | Some (hh, s1) =>
    if negb (hh <? 24) then None else
    match expect ":" s1 with
    | None => Some (hh * 3600000000, s1)
    | Some s2 =>
      match take_digits 2 s2 0 with
      | None => None
      | Some (mm, s3) =>
        if negb (mm <? 60) then None else
        match expect ":" s3 with
        | None => Some (hh * 3600000000 + mm * 60000000, s3)
        | Some s4 =>
          match take_digits 2 s4 0 with
          | None => None
          | Some (ss, s5) =>
            if negb (ss <? 60) then None else
            let base := hh * 3600000000 + mm * 60000000 + ss * 1000000 in
            match expect "." s5 with
            | None => Some (base, s5)
            | Some s6 =>
              match take_digits 6 s6 0 with
              | Some (f, s7) => Some (base + f, s7)
              | None =>
                match take_digits 3 s6 0 with
                | Some (f, s7) => Some (base + f * 1000, s7)
                | None => None
                end
              end
            end
          end
        end
      end
    end
  end.

(** [+HH:MM[:SS]] or [-HH:MM[:SS]] to the end of the text. *)
Definition parse_offset (s : str) : option Z :=
  match s with
  | c :: s0 =>
    if (c =? chr "+")%N || (c =? chr "-")%N then
      match take_digits 2 s0 0 with
      | None => None
      | Some (hh, s1) =>
        match expect ":" s1 with
        | None => None
        | Some s2 =>
          match take_digits 2 s2 0 with
          | None => None
          | Some (mm, s3) =>
            let finish (ss : Z) :=
              if (hh <? 24) && (mm <? 60) && (ss <? 60) then
                let v := hh * 3600000000 + mm * 60000000 + ss * 1000000 in
                Some (if (c =? chr "-")%N then - v else v)
              else None in
            match s3 with
            | [] => finish 0
            | _ =>
              match expect ":" s3 with
              | None => None
              | Some s4 =>
                match take_digits 2 s4 0 with
                | Some (ss, []) => finish ss
                | _ => None
                end
              end
            end
          end
        end
      end
    else None
  | [] => None
  end.

Definition fromisoformat (s : str) : option datetime :=
  match take_digits 4 s 0 with
  | None => None
  | Some (y, s1) =>
    match expect "-" s1 with
    | None => None
    | Some s2 =>
      match take_digits 2 s2 0 with
      | None => None
      | Some (m, s3) =>
        match expect "-" s3 with
        | None => None
        | Some s4 =>
          match take_digits 2 s4 0 with
          | None => None
          | Some (d, s5) =>
            if (1 <=? y) && (1 <=? m) && (m <=? 12) && (1 <=? d)
               && (d <=? days_in_month y m) then
              let day_us := days_from_civil y m d * 86400000000 in
              match s5 with
              | [] => Some {| wall_us := day_us; utcoffset := None |}
              | _ :: s6 =>
                match parse_clock s6 with
                | None => None
                | Some (t, []) =>
                  Some {| wall_us := day_us + t; utcoffset := None |}
                | Some (t, s7) =>
                  match parse_offset s7 with
                  | Some off =>
                    Some {| wall_us := day_us + t; utcoffset := Some off |}
                  | None => None
                  end
                end
              end
            else None
          end
        end
      end
    end
  end.

(** [floor(log10 x)] for [0 < x]. *)
Definition ilog10 (x : Q) : Z :=
  let pow10 (k : Z) : Q := Qpower 10 k in
  let up (k : Z) : Z := if Qle_bool (pow10 (k + 1)) x then k + 1 else k in
  let down (k : Z) : Z := if Qle_bool (pow10 k) x then k else k - 1 in
  down (down (up (up ((Float64.ilog2 x * 30103) / 100000)))).

(** The decimal [d * 10^s] in positional notation, with at least one digit
    after the point and no trailing zero beyond it. *)
Fixpoint strip_zeros (fuel : nat) (d s : Z) : Z * Z :=
  match fuel with
  | O => (d, s)
  | S fuel' =>
    if (s <? 0) && (d mod 10 =? 0) && negb (d =? 0)
    then strip_zeros fuel' (d / 10) (s + 1) else (d, s)
  end.

Definition positional (d s : Z) : str :=
  let '(d, s) := strip_zeros 400 d s in
  if 0 <=? s then str_of_Z d ++ repeat 48%N (Z.to_nat s) ++ u ".0"
  else
    let digits := str_of_Z d in
    let n := Z.to_nat (- s) in
    let digits := repeat 48%N (S n - List.length digits) ++ digits in
    let k := (List.length digits - n)%nat in
    firstn k digits ++ [46%N] ++ skipn k digits.

(** The shortest decimal that reads back as the same binary64. *)
Fixpoint shortest (fuel : nat) (k : Z) (x : Q) (e10 : Z) : Z * Z :=
  let s := e10 - k + 1 in
  let d := Float64.rne (x / Qpower 10 s) in
  match fuel with
  | O => (d, s)
  | S fuel' =>
    match Float64.round (inject_Z d * Qpower 10 s) with
    | Float64.Finite y => if Qeq_bool x y then (d, s) else shortest fuel' (k + 1) x e10
    | _ => shortest fuel' (k + 1) x e10
    end
  end.

Definition repr_float (x : Q) : str :=
  match Qcompare x 0 with
  | Eq => u "0.0"
  | Gt => let '(d, s) := shortest 16 1 x (ilog10 x) in positional d s
  | Lt => let '(d, s) := shortest 16 1 (- x) (ilog10 (- x)) in 45%N :: positional d s
  end.

Definition lib : Lib :=
  {| Py.lower := lower;
     Py.isdigit := isdigit;
     Py.digit_value := digit_value;
     Py.isspace := isspace;
     Py.isword := isword;
     Py.fromisoformat := fromisoformat;
     Py.repr_float := repr_float |}.

End AsciiLib.

(* ===================================================================== *)
(** ** The states of a deterministic run *)
(* ===================================================================== *)

Import Text Py Regex graph_langgraph.
Local Open Scope py_scope.

(** The state the router leaves for intent [i]. *)
Definition routed (i : Intent) (p : str) : AgentState :=
  set_evidence [] (set_tools_called [] (set_intent i (initial_state p))).

(** The shown items: [products[:2]]. *)
Definition picks_of {L : Lib} (w : tools.World) (p : str) : list tools.Product :=
  firstn 2 (tools.product_search w p (price_cap p) (or_None (tags p))).

(** The state the tool selector leaves on the product branch. *)
Definition selected_product {L : Lib} (w : tools.World) (p : str) : AgentState :=
  {| prompt := p; intent := Some product_assist;
     tools_called := Some [u "product_search"; u "size_recommender"; u "eta"];
     evidence := Some (List.map product_evidence (picks_of w p));
     policy_decision := None; final_message := None;
     order := None; order_id := None; email := None;
     products := Some (picks_of w p);
     size := Some (tools.size_recommender p);
     eta := Some (tools.eta (zip_code p)) |}.

(** The state the tool selector leaves on the order branch, [found] being
    the outcome of the lookup. *)
Definition selected_order {L : Lib} (p : str) (found : option tools.Order)
  : AgentState :=
  {| prompt := p; intent := Some order_help;
     tools_called := Some [u "order_lookup"];
     evidence := Some [OrderEvidence (oid p) (email_of p)
                         (match found with Some _ => true | None => false end)];
     policy_decision := None; final_message := None;
     order := Some found; order_id := Some (oid p);
     email := Some (email_of p);
     products := None; size := None; eta := None |}.

Definition missing_credentials : tools.Decision :=
  {| tools.cancel_allowed := false;
     tools.reason := u "order_not_found_or_missing_credentials" |}.

(** The reply on the order branch once an order was found. *)
Definition order_message (o : tools.Order) (d : tools.Decision) : str :=
  if tools.cancel_allowed d then cancelled_message o
  else blocked_message o (tools.reason d).

(** What [run_agent] returns for the final state [out]. *)
Definition reply_of (out : AgentState) : Reply :=
  {| trace :=
       {| trace_intent := intent out;
          trace_tools_called := get_or (tools_called out) [];
          trace_evidence := get_or (evidence out) [];
          trace_policy_decision := get_nullable (policy_decision out);
          trace_final_message := get_or (final_message out) [] |};
     reply := get_or (final_message out) [] |}.

(** The world [w] read at another instant of the system clock. *)
Definition at_clock (c : Z) (w : tools.World) : tools.World :=
  {| tools.getenv := tools.getenv w;
     tools.clock_us := c;
     tools.products_json := tools.products_json w;
     tools.orders_json := tools.orders_json w |}.

(* The floats of the Standard Library's specification of IEEE 754, to
   compare [Float64] with. *)

(** The binary64 [z], and the value of a specified float. *)
Definition spec_of_Z (z : Z) : SpecFloat.spec_float :=
  SpecFloat.binary_normalize 53 1024 z 0 false.

Definition spec_value (x : SpecFloat.spec_float) : option Float64.float :=
  match x with
  | SpecFloat.S754_zero _ => Some (Float64.Finite 0)
  | SpecFloat.S754_infinity s => Some (if s then Float64.NegInf else Float64.PosInf)
  | SpecFloat.S754_nan => None
  | SpecFloat.S754_finite s m e =>
    Some (Float64.Finite
            (Qred (inject_Z (if s then Zneg m else Zpos m) * Float64.pow2 e)))
  end.

Definition spec_div (a b : Z) : SpecFloat.spec_float :=
  SpecFloat.SFdiv 53 1024 (spec_of_Z a) (spec_of_Z b).

(** [re.search(pattern, text).group(1)] and [re.findall] on ASCII text. *)
Definition search1 (r : regex) (text : string) : option str :=
  search_group1 r (u text).

(* Word-bounded digit runs: what the pattern of the postal code looks for. *)

(** The position [j] characters further on. *)
Fixpoint advance (j : nat) (c : cursor) : cursor :=
  match j, rest c with
  | S j', x :: s => advance j' (step x s c)
  | _, _ => c
  end.

(** The last character of a text, or [p] for the empty text. *)
Fixpoint last_or (p : option char) (s : str) : option char :=
  match s with
  | [] => p
  | x :: s' => last_or (Some x) s'
  end.

(** [\b] between the texts [before] and [after]. *)
Definition boundary (w : char -> bool) (before after : str) : bool :=
  xorb (match last_or None before with Some x => w x | None => false end)
       (match after with x :: _ => w x | [] => false end).

(** A run of five or six digits of [p] with a word boundary on both sides. *)
Definition zip_token {L : Lib} (p : str) : Prop :=
  exists pre ds post,
    p = pre ++ ds ++ post /\
    (length ds = 5 \/ length ds = 6)%nat /\
    forallb isdigit ds = true /\
    boundary isword pre (ds ++ post) = true /\
    boundary isword (pre ++ ds) post = true.

(** The elapsed minutes of a span of [td] microseconds, as a real. *)
Definition elapsed_minutes (td : Z) : Q := inject_Z td / 60000000.

(** The unit roundoff of binary64. *)
Definition eps : Q := Float64.pow2 (-53).

(** [(a.price, a.id) == (b.price, b.id)]. *)
Definition key_eqb (a b : tools.Product) : bool :=
  Qeq_bool (tools.number_value (tools.price a)) (tools.number_value (tools.price b))
  && Text.eqb (tools.id a) (tools.id b).

(** The order of the sort keys [(price, id)]. *)
Definition key_le (a b : tools.Product) : Prop :=
  let pa := tools.number_value (tools.price a) in
  let pb := tools.number_value (tools.price b) in
  (pa < pb)%Q \/ ((pa == pb)%Q /\ Text.leb (tools.id a) (tools.id b) = true).

(* ===================================================================== *)
(** ** Sample data *)
(* ===================================================================== *)

(** A small catalogue and order book in the schema of the two data files,
    and a world around them, for the concrete runs below. *)
Module Sample.

Definition product (i t : string) (p : tools.number) (tg : list string)
    (c : string) : tools.Product :=
  {| tools.id := u i; tools.title := u t; tools.price := p;
     tools.sizes := [u "S"; u "M"; u "L"]; tools.tags := List.map u tg;
     tools.color := u c |}.

Definition products : list tools.Product :=
  [product "P3" "Party Dress" (tools.Int 150) ["party"] "Red";
   product "P1" "Midi Wrap Dress" (tools.Int 119) ["wedding"; "midi"] "Charcoal";
   product "P4" "Lace Midi Dress" (tools.Int 99) ["wedding"; "midi"; "lace"] "Navy";
   product "P2" "Satin Slip Dress" (tools.Float 99) ["wedding"; "midi"] "Blush";
   product "P5" "Linen Shirt" (tools.Float (179 # 2)) ["casual"] "White"]%string.

Definition order (i e c : string) : tools.Order :=
  {| tools.order_id := u i; tools.email := u e; tools.created_at := u c |}.

Definition order_A1001 : tools.Order :=
  order "A1001" "rehan@example.com" "2025-09-07T10:00:00Z".
Definition order_A1002 : tools.Order :=
  order "A1002" "alex@example.com" "2025-09-06T13:05:00Z".
Definition order_A1003 : tools.Order :=
  order "A1003" "mira@example.com" "2025-09-07T11:55:00Z".

Definition orders : list tools.Order := [order_A1001; order_A1002; order_A1003].

(** No LLM key in the environment; NOW_ISO as given. *)
Definition world (now_iso : option string) : tools.World :=
  {| tools.getenv :=
       fun name => if Text.eqb name (u "NOW_ISO") then option_map u now_iso else None;
     tools.clock_us := 63892850000000000;
     tools.products_json := products;
     tools.orders_json := orders |}.

(** A text-generation service that is never reached in these runs. *)
Definition no_llm : LLM :=
  {| call_llm := fun _ _ => Raise LLMError; json_dumps := fun _ => [] |}.

(** The worlds of the four cases of the test driver, and one with an
    override that is no timestamp. *)
Definition world_unset : tools.World := world None.
Definition world_allowed : tools.World := world (Some "2025-09-07T12:40:00Z"%string).
Definition world_blocked : tools.World := world (Some "2025-09-06T15:10:00Z"%string).

(** Prompts. *)
Definition wedding_prompt : str :=
  u "Wedding guest, midi, under $120 — I'm between M/L. ETA to 560001?".
Definition cancel_A1003_prompt : str :=
  u "Cancel order A1003 — email mira@example.com.".
Definition cancel_A1002_prompt : str :=
  u "Cancel order A1002 — email alex@example.com.".
Definition discount_prompt : str :=
  u "Can you give me a discount code that doesn't exist?".
Definition order_status_prompt : str :=
  u "Order status for my midi dress, size M?".
Definition no_email_prompt : str := u "Cancel order A1003 please".
Definition no_zip_prompt : str := u "Show me a midi dress".
Definition empty_prompt : str := [].

End Sample.

(* ===================================================================== *)
(** * Theorems *)
(* ===================================================================== *)

Example utf8_probe : Text.u "3–5 a’b" = [51; 8211; 53; 32; 97; 8217; 98]%N.
Proof. reflexivity. Qed.

Example str_probe : Text.str_of_Z (-1205) = Text.u "-1205" /\ Text.str_of_Z 0 = Text.u "0".
Proof. split; reflexivity. Qed.

(* --------------------------------------------------------------------- *)
(** ** The runtime model on known answers *)
(* --------------------------------------------------------------------- *)

(** [Float64] rounds as the Standard Library's specification of binary64
    does, on the quotients and the sum of the cancellation check. *)
Example truediv_as_SpecFloat :
  List.map (fun ab => Some (Float64.truediv (fst ab) (snd ab)))
    [(3600000001, 1000000); (3600000060, 1000000); (1, 1000000000);
     (3, 1000000); (-2400000, 1000000); (1, 3); (2, 3); (7, 10)]
  = List.map (fun ab => spec_value (spec_div (fst ab) (snd ab)))
      [(3600000001, 1000000); (3600000060, 1000000); (1, 1000000000);
       (3, 1000000); (-2400000, 1000000); (1, 3); (2, 3); (7, 10)].
Proof. vm_compute. reflexivity. Qed.

Example delta_as_SpecFloat :
  List.map (fun td => Some (tools.delta td))
    [3600000001; 3600000060; 2700000000; 7500000000; 3000000; 1; 123456789]
  = List.map (fun td =>
               spec_value (SpecFloat.SFdiv 53 1024 (spec_div td 1000000) (spec_of_Z 60)))
      [3600000001; 3600000060; 2700000000; 7500000000; 3000000; 1; 123456789].
Proof. vm_compute. reflexivity. Qed.

Example cancel_limit_as_SpecFloat :
  Some tools.cancel_limit
  = spec_value (SpecFloat.SFadd 53 1024 (spec_of_Z 60) (spec_div 1 1000000000)).
Proof. vm_compute. reflexivity. Qed.

Example of_Z_as_SpecFloat :
  List.map (fun z => Some (Float64.of_Z z))
    [120; 9007199254740993; 100000000000000000000000]
  = List.map (fun z => spec_value (spec_of_Z z))
      [120; 9007199254740993; 100000000000000000000000].
Proof. vm_compute. reflexivity. Qed.

(** [format_1f] prints what CPython prints for [f"{x:.1f}"]. *)
Example format_1f_known :
  List.map (fun td => Float64.format_1f (tools.delta td))
    [2700000000; 7500000000; 3600000000; 3600000060; -2400000; 3000000; 9000000; 1]
  = [u "45.0"; u "125.0"; u "60.0"; u "60.0"; u "-0.0"; u "0.1"; u "0.1"; u "0.0"].
Proof. vm_compute. reflexivity. Qed.

(** The matcher returns what CPython's [re] returns on [AsciiLib]. *)
Example price_re_known :
  let L := AsciiLib.lib in
  List.map (search1 price_re)
    ["under   $  45 or under 9"; "lunder$7"; "under $ x"; "under $120"]%string
  = [Some (u "45"); Some (u "7"); None; Some (u "120")].
Proof. vm_compute. reflexivity. Qed.

Example zip_re_known :
  let L := AsciiLib.lib in
  List.map (search1 zip_re)
    ["a1234567 12345a 123456 12345"; "1234567 x-54321."; "1234 1234567";
     "zip:560001"; "_12345"]%string
  = [Some (u "123456"); Some (u "54321"); None; Some (u "560001"); None].
Proof. vm_compute. reflexivity. Qed.

Example order_re_known :
  let L := AsciiLib.lib in
  List.map (search1 order_re)
    ["order   B12345678 and A1234"; "mira1234@example.com"; "order 12345";
     "orderA123 x9999"]%string
  = [Some (u "B12345678"); Some (u "a1234"); None; Some (u "x9999")].
Proof. vm_compute. reflexivity. Qed.

Example email_re_known :
  List.map (search1 email_re)
    ["mail me at a.b+c@x-y.example.com. thanks";
     "mail me at a.b+c@x-y.example.c.om1 thanks"; "a@b.c"; "x@@y.zz  k@l.mn"]%string
  = [Some (u "a.b+c@x-y.example.com"); Some (u "a.b+c@x-y.example.c.om"); None;
     Some (u "k@l.mn")].
Proof. vm_compute. reflexivity. Qed.

Example findall_known :
  findall tools.token_re (u "wedding guest, midi_dress under $120 — i'm")
  = [u "wedding"; u "guest"; u "midi"; u "dress"; u "under"; u "120"; u "i"; u "m"].
Proof. vm_compute. reflexivity. Qed.

(** [AsciiLib.fromisoformat] and [AsciiLib.repr_float] on known answers. *)
Example fromisoformat_known :
  List.map AsciiLib.fromisoformat
    [u "2025-09-07T12:40:00+00:00"; u "2025-09-07T12:40:00"; u "2025-09-07";
     u "2024-02-29 12:40:00.123-05:30"; u "2025-02-29T12:40:00"; u "tomorrow"; []]
  = [Some {| wall_us := 63892845600000000; utcoffset := Some 0 |};
     Some {| wall_us := 63892845600000000; utcoffset := None |};
     Some {| wall_us := 63892800000000000; utcoffset := None |};
     Some {| wall_us := 63844807200123000; utcoffset := Some (-19800000000) |};
     None; None; None].
Proof. vm_compute. reflexivity. Qed.

Example repr_float_known :
  List.map (fun ab =>
              match Float64.truediv (fst ab) (snd ab) with
              | Float64.Finite q => AsciiLib.repr_float q
              | _ => []
              end)
    [(120, 1); (1, 10); (8999, 100); (179, 2); (-5, 4); (1, 3); (2, 3);
     (9007199254740993, 1)]
  = [u "120.0"; u "0.1"; u "89.99"; u "89.5"; u "-1.25"; u "0.3333333333333333";
     u "0.6666666666666666"; u "9007199254740992.0"].
Proof. vm_compute. reflexivity. Qed.

(* --------------------------------------------------------------------- *)
(** ** Texts: equality and order *)
(* --------------------------------------------------------------------- *)

Lemma eqb_refl (a : str) : Text.eqb a a = true.
Proof.
  induction a as [|x a IH]; [reflexivity|].
  cbn [Text.eqb]. rewrite N.eqb_refl, IH. reflexivity.
Qed.

Lemma eqb_eq (a b : str) : Text.eqb a b = true -> a = b.
Proof.
  revert b. induction a as [|x a IH]; intros [|y b] H; try reflexivity;
    try discriminate.
  cbn [Text.eqb] in H. apply andb_true_iff in H. destruct H as [Hx Ha].
  apply N.eqb_eq in Hx. subst. f_equal. auto.
Qed.

Lemma ltb_irrefl (a : str) : Text.ltb a a = false.
Proof.
  induction a as [|x a IH]; [reflexivity|].
  cbn [Text.ltb]. rewrite N.ltb_irrefl, N.eqb_refl, IH. reflexivity.
Qed.

Lemma ltb_asym (a b : str) : Text.ltb a b = true -> Text.ltb b a = false.
Proof.
  revert b. induction a as [|x a IH]; intros [|y b] H; try reflexivity;
    try discriminate.
  cbn [Text.ltb] in *.
  destruct (N.ltb_spec x y), (N.ltb_spec y x), (N.eqb_spec x y), (N.eqb_spec y x);
    cbn in *; try lia; try discriminate; auto.
Qed.

Lemma ltb_trans (a b c : str) :
  Text.ltb a b = true -> Text.ltb b c = true -> Text.ltb a c = true.
Proof.
  revert b c. induction a as [|x a IH]; intros [|y b] [|z c] H1 H2;
    try reflexivity; try discriminate.
  cbn [Text.ltb] in *.
  destruct (N.ltb_spec x y), (N.ltb_spec y z), (N.ltb_spec x z),
    (N.eqb_spec x y), (N.eqb_spec y z), (N.eqb_spec x z);
    cbn in *; try lia; try discriminate; eauto.
Qed.

(** Of two texts neither of which is smaller, the two are equal. *)
Lemma ltb_total (a b : str) :
  Text.ltb a b = false -> Text.ltb b a = false -> a = b.
Proof.
  revert b. induction a as [|x a IH]; intros [|y b] H1 H2; try reflexivity;
    try discriminate.
  cbn [Text.ltb] in *.
  destruct (N.ltb_spec x y), (N.ltb_spec y x), (N.eqb_spec x y), (N.eqb_spec y x);
    cbn in *; try lia; try discriminate.
  subst. f_equal. auto.
Qed.

Lemma leb_trans (a b c : str) :
  Text.leb a b = true -> Text.leb b c = true -> Text.leb a c = true.
Proof.
  unfold Text.leb. intros H1 H2.
  apply negb_true_iff in H1, H2. apply negb_true_iff.
  destruct (Text.ltb c a) eqn:Hca; [|reflexivity].
  destruct (Text.ltb a b) eqn:Hab.
  - rewrite (ltb_trans c a b Hca Hab) in H2. discriminate.
  - assert (a = b) by (apply ltb_total; assumption). subst. congruence.
Qed.

(* --------------------------------------------------------------------- *)
(** ** The pipeline in deterministic mode *)
(* --------------------------------------------------------------------- *)

Section Pipeline.
Context {L : Lib}.
Variables (w : tools.World) (m : LLM).
Hypothesis det : use_llm w = false.

Lemma router_det (st : AgentState) :
  router_node w m st
  = Ok (set_evidence [] (set_tools_called [] (set_intent (classify (prompt st)) st))).
Proof. unfold router_node. rewrite det. reflexivity. Qed.

Lemma router_initial (p : str) :
  router_node w m (initial_state p) = Ok (routed (classify p) p).
Proof. apply router_det. Qed.

Lemma responder_det (st : AgentState) :
  responder_node w m st
  = (i <- getitem (intent st) ;;
     msg <- compose_deterministic i st ;;
     Ok (set_final_message msg st)).
Proof. unfold responder_node. rewrite det. reflexivity. Qed.

Lemma tool_selector_product (p : str) :
  tool_selector_node w (routed product_assist p) = Ok (selected_product w p).
Proof. reflexivity. Qed.

Lemma tool_selector_order (p : str) :
  tool_selector_node w (routed order_help p) = Ok (selected_order p (order_of w p)).
Proof. reflexivity. Qed.

Lemma tool_selector_other (p : str) :
  tool_selector_node w (routed other p) = Ok (routed other p).
Proof. reflexivity. Qed.

Lemma invoke_other (p : str) :
  classify p = other ->
  invoke w m (initial_state p)
  = Ok (set_final_message other_message (set_policy_decision None (routed other p))).
Proof.
  intros Hc. unfold invoke. rewrite router_initial, Hc.
  cbn [bind]. rewrite tool_selector_other. cbn [bind].
  change (policy_guard_node w (routed other p))
    with (Ok (A:=AgentState) (set_policy_decision None (routed other p))).
  cbn [bind]. rewrite responder_det. reflexivity.
Qed.

Lemma invoke_product (p : str) :
  classify p = product_assist ->
  exists msg,
    invoke w m (initial_state p)
    = Ok (set_final_message msg (set_policy_decision None (selected_product w p))).
Proof.
  intros Hc. unfold invoke. rewrite router_initial, Hc.
  cbn [bind]. rewrite tool_selector_product. cbn [bind].
  change (policy_guard_node w (selected_product w p))
    with (Ok (A:=AgentState) (set_policy_decision None (selected_product w p))).
  cbn [bind]. rewrite responder_det.
  change (intent (set_policy_decision None (selected_product w p)))
    with (Some product_assist).
  cbn [bind getitem].
  unfold compose_deterministic.
  change (products (set_policy_decision None (selected_product w p)))
    with (Some (picks_of w p)).
  destruct (picks_of w p); cbn [bind]; eexists; reflexivity.
Qed.

Lemma invoke_order (p : str) :
  classify p = order_help ->
  invoke w m (initial_state p)
  = match order_of w p with
    | None =>
      Ok (set_final_message not_verified_message
            (set_policy_decision (Some missing_credentials) (selected_order p None)))
    | Some o =>
      d <- tools.order_cancel w (tools.order_id o) None ;;
      Ok (set_final_message (order_message o d)
            (set_policy_decision (Some d) (selected_order p (Some o))))
    end.
Proof.
  intros Hc. unfold invoke. rewrite router_initial, Hc.
  cbn [bind]. rewrite tool_selector_order. cbn [bind].
  destruct (order_of w p) as [o|].
  - unfold policy_guard_node.
    change (intent (selected_order p (Some o))) with (Some order_help).
    cbn [getitem bind Intent_eqb negb].
    change (order (selected_order p (Some o))) with (Some (Some o)).
    cbn iota.
    destruct (tools.order_cancel w (tools.order_id o) None) as [d|e]; cbn [bind];
      [|reflexivity].
    rewrite responder_det. unfold order_message, compose_deterministic.
    cbn [bind getitem get_nullable intent order policy_decision
         set_policy_decision selected_order].
    destruct (tools.cancel_allowed d); reflexivity.
  - unfold policy_guard_node.
    cbn [bind getitem get_nullable intent order policy_decision
         selected_order Intent_eqb negb].
    rewrite responder_det. unfold compose_deterministic.
    cbn [bind getitem get_nullable intent order policy_decision
         set_policy_decision selected_order].
    reflexivity.
Qed.

Lemma run_agent_invoke (p : str) :
  run_agent w m p = (out <- invoke w m (initial_state p) ;; Ok (reply_of out)).
Proof. reflexivity. Qed.

End Pipeline.

Lemma any_in_true (ks : list str) (low : str) :
  any_in ks low = true <-> exists k, In k ks /\ contains k low = true.
Proof. unfold any_in. apply existsb_exists. Qed.

Lemma any_in_false (ks : list str) (low : str) :
  any_in ks low = false <-> forall k, In k ks -> contains k low = false.
Proof.
  unfold any_in. split.
  - intros H k Hk. destruct (contains k low) eqn:E; [|reflexivity].
    rewrite <- H. symmetry. apply existsb_exists. eauto.
  - intros H. destruct (existsb _ ks) eqn:E; [|reflexivity].
    apply existsb_exists in E. destruct E as [k [Hk Hc]].
    rewrite (H k Hk) in Hc. discriminate.
Qed.

(* --------------------------------------------------------------------- *)
(** ** Router *)
(* --------------------------------------------------------------------- *)

(** C2. In deterministic mode, a prompt whose lower-cased text contains any
    of the order keywords is classified [order_help], whatever else it
    contains (nothing is assumed about the product keywords): the order
    check comes first. *)
Theorem router_order_precedence {L : Lib} (w : tools.World) (m : LLM)
    (st : AgentState) (k : str) :
  use_llm w = false ->
  In k order_keywords ->
  contains k (lower (prompt st)) = true ->
  classify (prompt st) = order_help /\
  exists st', router_node w m st = Ok st' /\ intent st' = Some order_help.
Proof.
  intros det Hk Hc.
  assert (Hcl : classify (prompt st) = order_help).
  { unfold classify. replace (any_in order_keywords (lower (prompt st))) with true.
    - reflexivity.
    - symmetry. apply any_in_true. eauto. }
  split; [exact Hcl|].
  rewrite router_det by exact det. rewrite Hcl. eexists. split; reflexivity.
Qed.

(* --------------------------------------------------------------------- *)
(** ** The guardrail reply *)
(* --------------------------------------------------------------------- *)

(** C10. In deterministic mode, a prompt with neither an order keyword nor
    a product keyword gets intent [other], no tool call, no evidence, a null
    policy decision, and the fixed refusal as final message and as reply. *)
Theorem other_intent_reply {L : Lib} (w : tools.World) (m : LLM) (p : str) :
  use_llm w = false ->
  (forall k, In k order_keywords -> contains k (lower p) = false) ->
  (forall k, In k product_keywords -> contains k (lower p) = false) ->
  run_agent w m p
  = Ok {| trace :=
            {| trace_intent := Some other;
               trace_tools_called := [];
               trace_evidence := [];
               trace_policy_decision := None;
               trace_final_message := other_message |};
          reply := other_message |}
  /\ contains (u "can’t generate custom discount codes") other_message = true
  /\ contains (u "newsletter") other_message = true
  /\ contains (u "seasonal sales") other_message = true
  /\ contains (u "wishlist") other_message = true.
Proof.
  intros det Ho Hp. split; [|repeat split; vm_compute; reflexivity].
  rewrite run_agent_invoke, invoke_other; [reflexivity|exact det|].
  unfold classify.
  rewrite (proj2 (any_in_false _ _) Ho), (proj2 (any_in_false _ _) Hp).
  reflexivity.
Qed.

(* --------------------------------------------------------------------- *)
(** ** Order help without credentials *)
(* --------------------------------------------------------------------- *)

(** C6. In deterministic mode, an [order_help] prompt from which the order
    id or the email cannot be extracted makes no lookup ([order_of] is
    [None] whatever the data file holds); the invocation returns normally
    with the decision [missing_credentials], the one tool name
    "order_lookup" and one evidence entry with the id, the email and
    [found = false]. *)
Theorem missing_credentials_recovered {L : Lib} (w : tools.World) (m : LLM)
    (p : str) :
  use_llm w = false ->
  classify p = order_help ->
  oid p = None \/ email_of p = None ->
  order_of w p = None /\
  run_agent w m p
  = Ok {| trace :=
            {| trace_intent := Some order_help;
               trace_tools_called := [u "order_lookup"];
               trace_evidence := [OrderEvidence (oid p) (email_of p) false];
               trace_policy_decision :=
                 Some {| tools.cancel_allowed := false;
                         tools.reason := u "order_not_found_or_missing_credentials" |};
               trace_final_message := not_verified_message |};
          reply := not_verified_message |}.
Proof.
  intros det Hc Hmiss.
  assert (Ho : order_of w p = None).
  { unfold order_of. destruct Hmiss as [H|H]; rewrite H; [reflexivity|].
    destruct (oid p); reflexivity. }
  split; [exact Ho|].
  rewrite run_agent_invoke, invoke_order by assumption. rewrite Ho. reflexivity.
Qed.

(* --------------------------------------------------------------------- *)
(** ** Which fields a run writes *)
(* --------------------------------------------------------------------- *)







(* --------------------------------------------------------------------- *)
(** ** The matcher on the pattern of the postal code *)
(* --------------------------------------------------------------------- *)

Section ZipPattern.
Local Open Scope nat_scope.

Lemma advance_rest (j : nat) (c : cursor) :
  j <= length (rest c) -> rest (advance j c) = skipn j (rest c).
Proof.
  revert c. induction j as [|j IH]; intros c Hj; [reflexivity|].
  cbn [advance]. destruct (rest c) as [|x s] eqn:E; [cbn in Hj; lia|].
  rewrite IH; [reflexivity|]. cbn in *. lia.
Qed.

Lemma advance_prev (j : nat) (c : cursor) :
  j <= length (rest c) ->
  prev (advance j c) = last_or (prev c) (firstn j (rest c)).
Proof.
  revert c. induction j as [|j IH]; intros c Hj; [reflexivity|].
  cbn [advance]. destruct (rest c) as [|x s] eqn:E; [cbn in Hj; lia|].
  rewrite IH; [reflexivity|]. cbn in *. lia.
Qed.

Lemma advance_group (j : nat) (c : cursor) : group1 (advance j c) = group1 c.
Proof.
  revert c. induction j as [|j IH]; intros c; [reflexivity|].
  cbn [advance]. destruct (rest c) as [|x s]; [reflexivity|].
  rewrite IH. reflexivity.
Qed.

Lemma run_cls (d : char -> bool) (c : cursor) (k : cursor -> option cursor) :
  run (Cls d) c k
  = match rest c with
    | x :: s => if d x then k (step x s c) else None
    | [] => None
    end.
Proof. reflexivity. Qed.

(** A bounded repetition of a character class fails exactly when the rest of
    the pattern fails after every admissible number of characters. *)
Lemma rep_cls_none (d : char -> bool) (lo hi : nat) (k : cursor -> option cursor)
    (fuel n : nat) (c : cursor) :
  length (rest c) <= fuel -> n <= hi ->
  (rep_loop (run (Cls d)) lo (Some hi) k fuel n c = None <->
   forall j, lo <= n + j -> n + j <= hi -> j <= length (rest c) ->
             forallb d (firstn j (rest c)) = true -> k (advance j c) = None).
Proof.
  revert n c. induction fuel as [|fuel IH]; intros n c Hf Hn.
  - cbn [rep_loop]. destruct (rest c) as [|x s] eqn:E; [|cbn in Hf; lia].
    split.
    + intros H j Hlo Hhi Hj _. cbn in Hj. assert (j = 0) by lia. subst j.
      cbn [advance]. replace (n + 0) with n in Hlo by lia.
      apply Nat.leb_le in Hlo. rewrite Hlo in H. exact H.
    + intros H. destruct (Nat.leb_spec lo n) as [Hlo|Hlo]; [|reflexivity].
      apply (H 0); [lia|lia|cbn; lia|reflexivity].
  - cbn [rep_loop below]. rewrite run_cls.
    assert (Hstop : (if lo <=? n then k c else None) = None <->
                    (lo <= n -> k c = None)).
    { destruct (Nat.leb_spec lo n); split; intros; try reflexivity; auto; lia. }
    destruct (rest c) as [|x s] eqn:E.
    + replace (if n <? hi then None else None) with (@None cursor)
        by (destruct (n <? hi); reflexivity).
      rewrite Hstop. split.
      * intros H j Hlo Hhi Hj _. cbn in Hj. assert (j = 0) by lia. subst j.
        cbn [advance]. apply H. lia.
      * intros H Hlo. apply (H 0); [lia|lia|cbn; lia|reflexivity].
    + assert (Hlt : (length (rest (step x s c)) <? length (x :: s)) = true).
      { apply Nat.ltb_lt. cbn. lia. }
      rewrite Hlt.
      destruct (Nat.ltb_spec n hi) as [Hlt'|Hge].
      * destruct (d x) eqn:Hd.
        -- destruct (rep_loop (run (Cls d)) lo (Some hi) k fuel (S n) (step x s c))
             as [m|] eqn:Hr.
           ++ split; [discriminate|]. intros H. exfalso.
              assert (Hnone : rep_loop (run (Cls d)) lo (Some hi) k fuel (S n)
                                (step x s c) = None).
              { apply IH; [cbn in *; lia|lia|].
                intros j Hlo Hhi Hj Hall.
                specialize (H (S j)). cbn [advance] in H. rewrite E in H.
                apply H; try lia.
                - cbn in *. lia.
                - cbn [firstn forallb]. rewrite Hd. exact Hall. }
              congruence.
           ++ rewrite Hstop. split.
              ** intros H j Hlo Hhi Hj Hall. destruct j as [|j].
                 --- cbn [advance]. apply H. lia.
                 --- cbn [advance]. rewrite E.
                     apply (proj1 (IH (S n) (step x s c) ltac:(cbn in *; lia)
                                     ltac:(lia)) Hr j); try lia.
                     +++ cbn in *. lia.
                     +++ cbn [firstn forallb] in Hall.
                         apply andb_true_iff in Hall. tauto.
              ** intros H Hlo. apply (H 0); [lia|lia|cbn; lia|reflexivity].
        -- rewrite Hstop. split.
           ++ intros H j Hlo Hhi Hj Hall. destruct j as [|j].
              ** cbn [advance]. apply H. lia.
              ** cbn [firstn forallb] in Hall. rewrite Hd in Hall. discriminate.
           ++ intros H Hlo. apply (H 0); [lia|lia|cbn; lia|reflexivity].
      * rewrite Hstop. split.
        -- intros H j Hlo Hhi Hj Hall. assert (j = 0) by lia. subst j.
           cbn [advance]. apply H. lia.
        -- intros H Hlo. apply (H 0); [lia|lia|cbn; lia|reflexivity].
Qed.

Lemma last_or_app (p : option char) (a b : str) :
  last_or p (a ++ b) = last_or (last_or p a) b.
Proof.
  revert p. induction a as [|x a IH]; intros p; [reflexivity|].
  cbn [last_or app]. apply IH.
Qed.

(** [re.search] finds nothing exactly when the pattern matches at no
    position of the text. *)
Lemma scan_none (r : regex) (p : option char) (s : str) :
  scan r p s = None <->
  forall pre suf, s = pre ++ suf ->
    run r {| prev := last_or p pre; rest := suf; group1 := None |} Some = None.
Proof.
  revert p. induction s as [|x s IH]; intros p; cbn [scan].
  - destruct (run r {| prev := p; rest := []; group1 := None |} Some) eqn:E.
    + split; [discriminate|]. intros H. pose proof (H [] [] eq_refl) as H0.
      cbn [last_or] in H0. congruence.
    + split; [|reflexivity]. intros _ pre suf Hs.
      symmetry in Hs. apply app_eq_nil in Hs. destruct Hs; subst. exact E.
  - destruct (run r {| prev := p; rest := x :: s; group1 := None |} Some) eqn:E.
    + split; [discriminate|]. intros H. pose proof (H [] (x :: s) eq_refl) as H0.
      cbn [last_or] in H0. congruence.
    + rewrite IH. split.
      * intros H [|y pre] suf Hs.
        -- cbn in Hs. subst suf. exact E.
        -- cbn in Hs. inversion Hs; subst. cbn [last_or]. apply H. reflexivity.
      * intros H pre suf Hs. apply (H (x :: pre) suf). rewrite Hs. reflexivity.
Qed.

Lemma run_grp (r : regex) (c : cursor) (k : cursor -> option cursor) :
  run (Grp r) c k
  = run r c (fun c' =>
      k {| prev := prev c'; rest := rest c';
           group1 := Some (firstn (length (rest c) - length (rest c')) (rest c)) |}).
Proof. reflexivity. Qed.

Lemma run_cat (r1 r2 : regex) (c : cursor) (k : cursor -> option cursor) :
  run (Cat r1 r2) c k = run r1 c (fun c' => run r2 c' k).
Proof. reflexivity. Qed.

Lemma run_bnd (w : char -> bool) (c : cursor) (k : cursor -> option cursor) :
  run (Bnd w) c k = if at_boundary w c then k c else None.
Proof. reflexivity. Qed.

Lemma run_rep (r : regex) (lo : nat) (hi : option nat) (c : cursor)
    (k : cursor -> option cursor) :
  run (Rep r lo hi) c k = rep_loop (run r) lo hi k (length (rest c)) 0 c.
Proof. reflexivity. Qed.

Lemma zip_run_none {L : Lib} (c : cursor) :
  run zip_re c Some = None <->
  ~ (at_boundary isword c = true /\
     exists j, (j = 5 \/ j = 6) /\ j <= length (rest c) /\
               forallb isdigit (firstn j (rest c)) = true /\
               at_boundary isword (advance j c) = true).
Proof.
  unfold zip_re, between. cbn [cat].
  rewrite run_grp, run_cat, run_bnd.
  destruct (at_boundary isword c) eqn:Hb; [|split; [intros _ [H _]; discriminate|reflexivity]].
  rewrite run_cat, run_rep, rep_cls_none by lia. split.
  - intros H [_ [j [Hj [Hlen [Hall Hend]]]]].
    specialize (H j ltac:(lia) ltac:(lia) Hlen Hall). rewrite run_bnd in H.
    rewrite Hend in H. discriminate.
  - intros H j Hlo Hhi Hlen Hall. rewrite run_bnd.
    destruct (at_boundary isword (advance j c)) eqn:Hend; [|reflexivity].
    exfalso. apply H. split; [reflexivity|]. exists j. repeat split; auto. lia.
Qed.

(** The pattern of the postal code finds nothing exactly in the texts that
    hold no word-bounded run of five or six digits. *)
Lemma zip_search_none {L : Lib} (p : str) :
  search zip_re p = None <-> ~ zip_token p.
Proof.
  unfold search. rewrite scan_none. split.
  - intros H [pre [ds [post [Hp [Hlen [Hall [Hb1 Hb2]]]]]]].
    specialize (H pre (ds ++ post) Hp). apply zip_run_none in H. apply H.
    split; [exact Hb1|]. exists (length ds). cbn [rest].
    assert (Hf : firstn (length ds) (ds ++ post) = ds).
    { rewrite firstn_app, Nat.sub_diag, firstn_all. cbn. apply app_nil_r. }
    repeat split.
    + lia.
    + rewrite length_app. lia.
    + rewrite Hf. exact Hall.
    + unfold at_boundary. rewrite advance_prev, advance_rest
        by (cbn [rest]; rewrite length_app; lia).
      cbn [prev rest]. rewrite Hf, <- last_or_app.
      rewrite skipn_app, Nat.sub_diag, skipn_all. cbn [app skipn]. exact Hb2.
  - intros H pre suf Hp. apply zip_run_none.
    intros [Hb1 [j [Hj [Hlen [Hall Hb2]]]]]. apply H.
    cbn [rest] in *.
    exists pre, (firstn j suf), (skipn j suf).
    rewrite firstn_skipn. repeat split; auto.
    + rewrite length_firstn. lia.
    + unfold at_boundary in Hb2. rewrite advance_prev, advance_rest in Hb2
        by (cbn [rest]; lia).
      cbn [prev rest] in Hb2. rewrite <- last_or_app in Hb2. exact Hb2.
Qed.

End ZipPattern.

(* --------------------------------------------------------------------- *)
(** ** The sentinel postal code *)
(* --------------------------------------------------------------------- *)

(** C9. In deterministic mode, on a [product_assist] prompt that holds no
    word-bounded run of five or six digits, the delivery estimate is asked
    for "00000", and the final state holds that code with the window of the
    catch-all rule. *)
Theorem sentinel_zip {L : Lib} (w : tools.World) (m : LLM) (p : str) :
  use_llm w = false ->
  classify p = product_assist ->
  ~ zip_token p ->
  zip_code p = u "00000" /\
  exists out,
    invoke w m (initial_state p) = Ok out /\
    eta out = Some (tools.eta (u "00000")) /\
    eta out = Some {| tools.zip := u "00000";
                      tools.eta_window := u "2–5 business days" |} /\
    tools_called out = Some [u "product_search"; u "size_recommender"; u "eta"].
Proof.
  intros det Hc Hz. apply zip_search_none in Hz.
  assert (Hzip : zip_code p = u "00000").
  { unfold zip_code, search_group1. rewrite Hz. reflexivity. }
  split; [exact Hzip|].
  destruct (invoke_product w m det p Hc) as [msg ->].
  eexists. split; [reflexivity|].
  cbn [eta set_final_message set_policy_decision selected_product tools_called].
  rewrite Hzip. repeat split.
Qed.

(* --------------------------------------------------------------------- *)
(** ** Reproducibility under an injected timestamp *)
(* --------------------------------------------------------------------- *)

Section Clock.
Context {L : Lib}.
Variables (w : tools.World) (m : LLM) (ts : str).
Hypothesis det : use_llm w = false.
Hypothesis injected : tools.getenv w (u "NOW_ISO") = Some ts.
Hypothesis nonempty : ts <> [].

Lemma utcnow_at_clock (c : Z) : tools.utcnow (at_clock c w) = tools.utcnow w.
Proof.
  unfold tools.utcnow. cbn [tools.getenv at_clock]. rewrite injected.
  destruct ts; [contradiction|reflexivity].
Qed.

Lemma order_cancel_at_clock (c : Z) (i : str) :
  tools.order_cancel (at_clock c w) i None = tools.order_cancel w i None.
Proof.
  unfold tools.order_cancel. cbn [tools.orders_json at_clock].
  destruct (find _ _); [|reflexivity].
  rewrite utcnow_at_clock. reflexivity.
Qed.

Lemma invoke_at_clock (c : Z) (p : str) :
  invoke (at_clock c w) m (initial_state p) = invoke w m (initial_state p).
Proof.
  assert (det' : use_llm (at_clock c w) = false) by exact det.
  destruct (classify p) eqn:Hc.
  - unfold invoke. rewrite !router_initial by assumption. rewrite Hc.
    cbn [bind]. rewrite !tool_selector_product.
    change (selected_product (at_clock c w) p) with (selected_product w p).
    cbn [bind].
    change (policy_guard_node (at_clock c w) (selected_product w p))
      with (policy_guard_node w (selected_product w p)).
    destruct (policy_guard_node w (selected_product w p)); [|reflexivity].
    cbn [bind]. rewrite !responder_det by assumption. reflexivity.
  - rewrite !invoke_order by assumption.
    change (order_of (at_clock c w) p) with (order_of w p).
    destruct (order_of w p); [|reflexivity].
    rewrite order_cancel_at_clock. reflexivity.
  - rewrite !invoke_other by assumption. reflexivity.
Qed.

End Clock.

(** C5. In deterministic mode, with a non-empty timestamp injected through
    NOW_ISO, two invocations on the same prompt, environment and data files
    give the same result (the same trace and reply, or the same error)
    whatever the system clock shows at each of them. *)
Theorem run_agent_reproducible {L : Lib} (w : tools.World) (m : LLM)
    (ts p : str) (c1 c2 : Z) :
  use_llm w = false ->
  tools.getenv w (u "NOW_ISO") = Some ts ->
  ts <> [] ->
  run_agent (at_clock c1 w) m p = run_agent (at_clock c2 w) m p.
Proof.
  intros det Hts Hne.
  rewrite !run_agent_invoke.
  rewrite (invoke_at_clock w m ts det Hts Hne c1 p).
  rewrite (invoke_at_clock w m ts det Hts Hne c2 p).
  reflexivity.
Qed.

(* --------------------------------------------------------------------- *)
(** ** Concrete runs *)
(* --------------------------------------------------------------------- *)

Lemma sample_deterministic (now_iso : option string) :
  use_llm (Sample.world now_iso) = false.
Proof. reflexivity. Qed.

(** The second and third case of the test driver: a cancellation inside the
    window, and one outside it. *)
Example run_allowed :
  run_agent (L := AsciiLib.lib) Sample.world_allowed Sample.no_llm
    Sample.cancel_A1003_prompt
  = Ok {| trace :=
            {| trace_intent := Some order_help;
               trace_tools_called := [u "order_lookup"];
               trace_evidence :=
                 [OrderEvidence (Some (u "A1003")) (Some (u "mira@example.com")) true];
               trace_policy_decision :=
                 Some {| tools.cancel_allowed := true;
                         tools.reason := u "within_60_min (45.0 min)" |};
               trace_final_message := cancelled_message Sample.order_A1003 |};
          reply :=
            u "✅ Order A1003 is cancelled successfully. You’ll see a confirmation email shortly." |}.
Proof. vm_compute. reflexivity. Qed.

Example run_blocked :
  run_agent (L := AsciiLib.lib) Sample.world_blocked Sample.no_llm
    Sample.cancel_A1002_prompt
  = Ok {| trace :=
            {| trace_intent := Some order_help;
               trace_tools_called := [u "order_lookup"];
               trace_evidence :=
                 [OrderEvidence (Some (u "A1002")) (Some (u "alex@example.com")) true];
               trace_policy_decision :=
                 Some {| tools.cancel_allowed := false;
                         tools.reason := u ">60 min (125.0 min)" |};
               trace_final_message :=
                 blocked_message Sample.order_A1002 (u ">60 min (125.0 min)") |};
          reply := blocked_message Sample.order_A1002 (u ">60 min (125.0 min)") |}.
Proof. vm_compute. reflexivity. Qed.

(** The first case: the two cheapest matching items, the cheaper id first
    among equal prices. *)
Example run_wedding :
  option_map (List.map tools.id)
    (match invoke (L := AsciiLib.lib) Sample.world_unset Sample.no_llm
             (initial_state Sample.wedding_prompt) with
     | Ok out => products out
     | Raise _ => None
     end)
  = Some [u "P2"; u "P4"].
Proof. vm_compute. reflexivity. Qed.

Lemma router_order_precedence_witness :
  classify (L := AsciiLib.lib) (prompt (initial_state Sample.order_status_prompt))
  = order_help /\
  exists st',
    router_node (L := AsciiLib.lib) Sample.world_unset Sample.no_llm
      (initial_state Sample.order_status_prompt) = Ok st' /\
    intent st' = Some order_help.
Proof.
  apply (router_order_precedence (L := AsciiLib.lib) Sample.world_unset
           Sample.no_llm (initial_state Sample.order_status_prompt)
           (u "order status")).
  - reflexivity.
  - right. left. reflexivity.
  - vm_compute. reflexivity.
Defined.

Ltac no_keyword :=
  let k := fresh "k" in
  let H := fresh "H" in
  intros k H; cbn [In order_keywords product_keywords] in H;
  repeat (destruct H as [H|H]; [subst k; vm_compute; reflexivity|]);
  contradiction.

Lemma other_intent_reply_witness :
  run_agent (L := AsciiLib.lib) Sample.world_unset Sample.no_llm Sample.empty_prompt
  = Ok {| trace :=
            {| trace_intent := Some other;
               trace_tools_called := [];
               trace_evidence := [];
               trace_policy_decision := None;
               trace_final_message := other_message |};
          reply := other_message |}
  /\ contains (u "can’t generate custom discount codes") other_message = true
  /\ contains (u "newsletter") other_message = true
  /\ contains (u "seasonal sales") other_message = true
  /\ contains (u "wishlist") other_message = true.
Proof.
  apply (other_intent_reply (L := AsciiLib.lib) Sample.world_unset Sample.no_llm
           Sample.empty_prompt).
  - reflexivity.
  - no_keyword.
  - no_keyword.
Defined.

Lemma missing_credentials_recovered_witness :
  order_of (L := AsciiLib.lib) Sample.world_unset Sample.no_email_prompt = None /\
  run_agent (L := AsciiLib.lib) Sample.world_unset Sample.no_llm Sample.no_email_prompt
  = Ok {| trace :=
            {| trace_intent := Some order_help;
               trace_tools_called := [u "order_lookup"];
               trace_evidence :=
                 [OrderEvidence (oid (L := AsciiLib.lib) Sample.no_email_prompt)
                    (email_of Sample.no_email_prompt) false];
               trace_policy_decision :=
                 Some {| tools.cancel_allowed := false;
                         tools.reason := u "order_not_found_or_missing_credentials" |};
               trace_final_message := not_verified_message |};
          reply := not_verified_message |}.
Proof.
  apply (missing_credentials_recovered (L := AsciiLib.lib) Sample.world_unset
           Sample.no_llm Sample.no_email_prompt).
  - reflexivity.
  - vm_compute. reflexivity.
  - right. vm_compute. reflexivity.
Defined.


Lemma sentinel_zip_witness :
  zip_code (L := AsciiLib.lib) Sample.no_zip_prompt = u "00000" /\
  exists out,
    invoke (L := AsciiLib.lib) Sample.world_unset Sample.no_llm
      (initial_state Sample.no_zip_prompt) = Ok out /\
    eta out = Some (tools.eta (u "00000")) /\
    eta out = Some {| tools.zip := u "00000";
                      tools.eta_window := u "2–5 business days" |} /\
    tools_called out = Some [u "product_search"; u "size_recommender"; u "eta"].
Proof.
  apply (sentinel_zip (L := AsciiLib.lib) Sample.world_unset Sample.no_llm
           Sample.no_zip_prompt).
  - reflexivity.
  - vm_compute. reflexivity.
  - apply zip_search_none. vm_compute. reflexivity.
Defined.

Lemma run_agent_reproducible_witness :
  run_agent (L := AsciiLib.lib) (at_clock 0 Sample.world_blocked) Sample.no_llm
    Sample.cancel_A1002_prompt
  = run_agent (L := AsciiLib.lib) (at_clock 86400000000 Sample.world_blocked)
      Sample.no_llm Sample.cancel_A1002_prompt.
Proof.
  apply (run_agent_reproducible (L := AsciiLib.lib) Sample.world_blocked
           Sample.no_llm (u "2025-09-06T15:10:00Z") Sample.cancel_A1002_prompt
           0 86400000000).
  - reflexivity.
  - vm_compute. reflexivity.
  - discriminate.
Defined.

(* --------------------------------------------------------------------- *)
(** ** Scenario 1 *)
(* --------------------------------------------------------------------- *)

(** C8. In deterministic mode and over any data files, the wedding prompt
    is classified [product_assist]; the price ceiling read from it is 120.0
    and the tags are "wedding" and "midi"; the postal code is "560001",
    whose prefix "56" gives the window "3–5 business days"; the text
    mentions neither "loose" nor "oversized" and the size advice is "M". *)
Theorem wedding_scenario (w : tools.World) (m : LLM) :
  use_llm w = false ->
  let L := AsciiLib.lib in
  let p := Sample.wedding_prompt in
  classify p = product_assist /\
  price_cap p = Some (Float64.Finite 120) /\
  tags p = [u "wedding"; u "midi"] /\
  zip_code p = u "560001" /\
  startswith (zip_code p) (u "56") = true /\
  contains (u "loose") (lower p) = false /\
  contains (u "oversized") (lower p) = false /\
  exists out,
    invoke w m (initial_state p) = Ok out /\
    intent out = Some product_assist /\
    eta out = Some {| tools.zip := u "560001";
                      tools.eta_window := u "3–5 business days" |} /\
    option_map tools.recommended (size out) = Some (u "M").
Proof.
  intros det L p.
  assert (Hc : classify p = product_assist) by (vm_compute; reflexivity).
  repeat (split; [vm_compute; reflexivity|]).
  destruct (invoke_product w m det p Hc) as [msg ->].
  eexists. split; [reflexivity|].
  cbn [intent eta size set_final_message set_policy_decision selected_product
       option_map].
  repeat split; vm_compute; reflexivity.
Qed.

Lemma wedding_scenario_witness :
  let L := AsciiLib.lib in
  let p := Sample.wedding_prompt in
  classify p = product_assist /\
  price_cap p = Some (Float64.Finite 120) /\
  tags p = [u "wedding"; u "midi"] /\
  zip_code p = u "560001" /\
  startswith (zip_code p) (u "56") = true /\
  contains (u "loose") (lower p) = false /\
  contains (u "oversized") (lower p) = false /\
  exists out,
    invoke Sample.world_unset Sample.no_llm (initial_state p) = Ok out /\
    intent out = Some product_assist /\
    eta out = Some {| tools.zip := u "560001";
                      tools.eta_window := u "3–5 business days" |} /\
    option_map tools.recommended (size out) = Some (u "M").
Proof.
  apply (wedding_scenario Sample.world_unset Sample.no_llm).
  reflexivity.
Defined.

(* --------------------------------------------------------------------- *)
(** ** Product search: the order of the results *)
(* --------------------------------------------------------------------- *)

Lemma key_ltb_false (x y : tools.Product) :
  tools.key_ltb y x = false -> key_le x y.
Proof.
  unfold tools.key_ltb, key_le. cbn zeta.
  destruct (Qeq_bool _ _) eqn:E.
  - apply Qeq_bool_iff in E. intros H. right. split.
    + symmetry. exact E.
    + unfold Text.leb. rewrite H. reflexivity.
  - intros H. apply negb_false_iff in H. apply Qle_bool_iff in H.
    apply Qeq_bool_neq in E. left.
    apply Qle_lteq in H. destruct H as [H|H]; [exact H|].
    exfalso. apply E. symmetry. exact H.
Qed.

Lemma key_ltb_true (x y : tools.Product) :
  tools.key_ltb y x = true -> key_le y x.
Proof.
  unfold tools.key_ltb, key_le. cbn zeta.
  destruct (Qeq_bool _ _) eqn:E.
  - apply Qeq_bool_iff in E. intros H. right. split; [exact E|].
    unfold Text.leb. rewrite (ltb_asym _ _ H). reflexivity.
  - intros H. apply negb_true_iff in H. left.
    apply Qnot_le_lt. intros Hle. apply Qle_bool_iff in Hle. congruence.
Qed.

Lemma key_le_trans (a b c : tools.Product) :
  key_le a b -> key_le b c -> key_le a c.
Proof.
  unfold key_le. cbn zeta.
  intros [H1|[H1 L1]] [H2|[H2 L2]].
  - left. lra.
  - left. lra.
  - left. lra.
  - right. split; [lra|]. eapply leb_trans; eauto.
Qed.

Lemma insert_sorted_perm (x : tools.Product) (l : list tools.Product) :
  Permutation (tools.insert_sorted x l) (x :: l).
Proof.
  induction l as [|y l IH]; cbn [tools.insert_sorted]; [reflexivity|].
  destruct (tools.key_ltb y x); [|reflexivity].
  rewrite IH. apply perm_swap.
Qed.

Lemma insert_sorted_sorted (x : tools.Product) (l : list tools.Product) :
  StronglySorted key_le l -> StronglySorted key_le (tools.insert_sorted x l).
Proof.
  induction 1 as [|y l Hs IH Hy]; cbn [tools.insert_sorted].
  - constructor; constructor.
  - destruct (tools.key_ltb y x) eqn:E.
    + constructor; [exact IH|].
      rewrite (insert_sorted_perm x l). constructor; [|exact Hy].
      apply key_ltb_true. exact E.
    + apply key_ltb_false in E.
      constructor; [constructor; assumption|].
      constructor; [exact E|].
      eapply Forall_impl; [|exact Hy]. intros z Hz. eapply key_le_trans; eauto.
Qed.

Lemma sort_sorted (l : list tools.Product) :
  StronglySorted key_le (tools.sort_by_price_id l).
Proof.
  induction l as [|x l IH]; cbn [tools.sort_by_price_id fold_right].
  - constructor.
  - apply insert_sorted_sorted. exact IH.
Qed.

Lemma sort_perm (l : list tools.Product) :
  Permutation (tools.sort_by_price_id l) l.
Proof.
  induction l as [|x l IH]; cbn [tools.sort_by_price_id fold_right].
  - reflexivity.
  - rewrite insert_sorted_perm. constructor. exact IH.
Qed.

Lemma key_ltb_not_eq (k x y : tools.Product) :
  tools.key_ltb y x = true -> key_eqb k x = true -> key_eqb k y = false.
Proof.
  unfold tools.key_ltb, key_eqb. cbn zeta. intros Hlt Hx.
  apply andb_true_iff in Hx. destruct Hx as [Hpx Hix].
  apply Qeq_bool_iff in Hpx. apply eqb_eq in Hix.
  destruct (Qeq_bool (tools.number_value (tools.price k))
              (tools.number_value (tools.price y))) eqn:Hpy; [|reflexivity].
  apply Qeq_bool_iff in Hpy. cbn [andb].
  destruct (Text.eqb (tools.id k) (tools.id y)) eqn:Hiy; [|reflexivity].
  apply eqb_eq in Hiy. exfalso.
  assert (Hq : Qeq_bool (tools.number_value (tools.price y))
                 (tools.number_value (tools.price x)) = true).
  { apply Qeq_bool_iff. rewrite <- Hpy. exact Hpx. }
  rewrite Hq in Hlt. rewrite <- Hiy, <- Hix, ltb_irrefl in Hlt. discriminate.
Qed.

Lemma insert_sorted_stable (k x : tools.Product) (l : list tools.Product) :
  filter (key_eqb k) (tools.insert_sorted x l) = filter (key_eqb k) (x :: l).
Proof.
  induction l as [|y l IH]; [reflexivity|].
  cbn [tools.insert_sorted]. destruct (tools.key_ltb y x) eqn:E; [|reflexivity].
  cbn [filter] in *. rewrite IH.
  destruct (key_eqb k x) eqn:Hx; [|reflexivity].
  rewrite (key_ltb_not_eq k x y E Hx). reflexivity.
Qed.

(** The sort is stable: items with equal keys keep their order. *)
Lemma sort_stable (k : tools.Product) (l : list tools.Product) :
  filter (key_eqb k) (tools.sort_by_price_id l) = filter (key_eqb k) l.
Proof.
  induction l as [|x l IH]; [reflexivity|].
  cbn [tools.sort_by_price_id fold_right]. rewrite insert_sorted_stable.
  cbn [filter]. fold (tools.sort_by_price_id l). rewrite IH. reflexivity.
Qed.

Lemma filter_perm {A : Type} (f : A -> bool) (l l' : list A) :
  Permutation l l' -> Permutation (filter f l) (filter f l').
Proof.
  induction 1 as [|x l l' H IH|x y l|l l' l'' H1 IH1 H2 IH2]; cbn [filter].
  - constructor.
  - destruct (f x); [constructor|]; exact IH.
  - destruct (f x), (f y); try reflexivity. apply perm_swap.
  - etransitivity; eauto.
Qed.

Lemma NoDup_map_eq {A B : Type} (f : A -> B) (l : list A) (a b : A) :
  NoDup (List.map f l) -> In a l -> In b l -> f a = f b -> a = b.
Proof.
  induction l as [|x l IH]; cbn [List.map In]; [contradiction|].
  intros Hnd Ha Hb Heq. inversion Hnd as [|? ? Hx Hnd']; subst.
  destruct Ha as [Ha|Ha], Hb as [Hb|Hb]; subst.
  - reflexivity.
  - exfalso. apply Hx. rewrite Heq. apply in_map. exact Hb.
  - exfalso. apply Hx. rewrite <- Heq. apply in_map. exact Ha.
  - apply IH; assumption.
Qed.

(** There is one sorted arrangement of a list whose order is antisymmetric
    on it. *)
Lemma sorted_perm_unique {A : Type} (R : A -> A -> Prop) (l1 l2 : list A) :
  StronglySorted R l1 -> StronglySorted R l2 -> Permutation l1 l2 ->
  (forall a b, In a l1 -> In b l1 -> R a b -> R b a -> a = b) ->
  l1 = l2.
Proof.
  intros H1. revert l2. induction H1 as [|a l1 Hs1 IH Ha]; intros l2 H2 Hp Hanti.
  - apply Permutation_nil in Hp. subst. reflexivity.
  - destruct H2 as [|b l2 Hs2 Hb].
    + apply Permutation_sym, Permutation_nil in Hp. discriminate.
    + assert (Hab : a = b).
      { assert (Hin_a : In a (b :: l2)).
        { eapply Permutation_in; [exact Hp|left; reflexivity]. }
        assert (Hin_b : In b (a :: l1)).
        { eapply Permutation_in; [apply Permutation_sym; exact Hp|left; reflexivity]. }
        destruct Hin_a as [E|Hin_a]; [symmetry; exact E|].
        destruct Hin_b as [E|Hin_b]; [exact E|].
        rewrite Forall_forall in Ha, Hb.
        apply Hanti; [left; reflexivity|right; exact Hin_b|auto|auto]. }
      subst b. f_equal. apply IH.
      * exact Hs2.
      * eapply Permutation_cons_inv. exact Hp.
      * intros x y Hx Hy. apply Hanti; right; assumption.
Qed.

Lemma key_le_antisym (a b : tools.Product) :
  key_le a b -> key_le b a ->
  tools.id a = tools.id b.
Proof.
  unfold key_le. cbn zeta. intros [H1|[H1 L1]] [H2|[H2 L2]]; try lra.
  unfold Text.leb in L1, L2. apply negb_true_iff in L1, L2.
  apply ltb_total; assumption.
Qed.

(** C4. For every query, price ceiling and tag set, the result of the product
    search is sorted ascending by price, ties broken by id, and holds exactly
    the items that pass the filter, items of equal price and id in the order
    of the data file (the sort is stable); over a catalogue with unique ids
    it is the same list, and so are the top two, whatever order the data file
    lists the items in. *)
Theorem product_search_sorted {L : Lib} (w : tools.World) (query : str)
    (price_max : option Float64.float) (tags_ : option (list str)) :
  let found := tools.product_search w query price_max tags_ in
  StronglySorted key_le found /\
  Permutation found
    (filter (tools.matches price_max tags_ (findall tools.token_re (lower query)))
       (tools.products_json w)) /\
  (forall k,
      filter (key_eqb k) found
      = filter (key_eqb k)
          (filter (tools.matches price_max tags_
                     (findall tools.token_re (lower query)))
             (tools.products_json w))) /\
  (forall w',
      NoDup (List.map tools.id (tools.products_json w)) ->
      Permutation (tools.products_json w) (tools.products_json w') ->
      tools.product_search w' query price_max tags_ = found /\
      firstn 2 (tools.product_search w' query price_max tags_) = firstn 2 found).
Proof.
  cbn zeta. unfold tools.product_search.
  split; [apply sort_sorted|]. split; [apply sort_perm|].
  split; [intros k; apply sort_stable|].
  intros w' Hnd Hp.
  set (f := tools.matches _ _ _).
  assert (E : tools.sort_by_price_id (filter f (tools.products_json w'))
              = tools.sort_by_price_id (filter f (tools.products_json w))).
  { apply (sorted_perm_unique key_le); try apply sort_sorted.
    - rewrite !sort_perm. apply filter_perm. apply Permutation_sym. exact Hp.
    - intros a b Ha Hb Hab Hba.
      assert (Hin : forall x, In x (tools.sort_by_price_id
                                      (filter f (tools.products_json w')))
                              -> In x (tools.products_json w)).
      { intros x Hx. eapply Permutation_in in Hx; [|apply sort_perm].
        apply filter_In in Hx. destruct Hx as [Hx _].
        eapply Permutation_in; [apply Permutation_sym; exact Hp|exact Hx]. }
      apply (NoDup_map_eq tools.id (tools.products_json w)); auto.
      apply key_le_antisym; assumption. }
  rewrite E. split; reflexivity.
Qed.

(* --------------------------------------------------------------------- *)
(** ** Binary64: rounding error and the sixty-minute comparison *)
(* --------------------------------------------------------------------- *)

Section Rounding.
Import Float64.
Local Open Scope Q_scope.

Lemma pow2_pos (k : Z) : 0 < pow2 k.
Proof. unfold pow2. apply Qpower_0_lt. reflexivity. Qed.

Lemma pow2_add (a b : Z) : pow2 (a + b) == pow2 a * pow2 b.
Proof. unfold pow2. apply Qpower_plus. discriminate. Qed.

Lemma pow2_opp (a : Z) : pow2 (- a) == / pow2 a.
Proof. unfold pow2. apply Qpower_opp. Qed.

Lemma pow2_inject (a : Z) : (0 <= a)%Z -> pow2 a == inject_Z (2 ^ a).
Proof. intros H. unfold pow2. rewrite Zpower_Qpower by exact H. reflexivity. Qed.

(** The nearest integer is within one half. *)
Lemma rne_bounds (y : Q) :
  y - (1 # 2) <= inject_Z (rne y) /\ inject_Z (rne y) <= y + (1 # 2).
Proof.
  unfold rne.
  pose proof (Qfloor_le y) as Hlo. pose proof (Qlt_floor y) as Hhi.
  rewrite inject_Z_plus in Hhi. change (inject_Z 1) with 1 in Hhi.
  destruct (Qcompare _ _) eqn:E.
  - apply Qeq_alt in E.
    destruct (Z.even (Qfloor y)); [|rewrite inject_Z_plus; change (inject_Z 1) with 1];
      split; lra.
  - apply Qlt_alt in E. split; lra.
  - apply Qgt_alt in E. rewrite inject_Z_plus. change (inject_Z 1) with 1.
    split; lra.
Qed.

Lemma ilog2_le (x : Q) : 0 < x -> pow2 (ilog2 x) <= x.
Proof.
  intros Hx. unfold ilog2.
  destruct (Qle_bool _ _) eqn:E; [apply Qle_bool_iff; exact E|]. clear E.
  destruct x as [n d]. cbn [Qnum Qden].
  assert (Hn : (0 < n)%Z).
  { unfold Qlt in Hx. cbn in Hx. lia. }
  set (a := Z.log2 n). set (b := Z.log2 (Zpos d)).
  assert (Ha : (0 <= a)%Z) by apply Z.log2_nonneg.
  assert (Hb : (0 <= b)%Z) by apply Z.log2_nonneg.
  destruct (Z.log2_spec n Hn) as [Hn1 _]. fold a in Hn1.
  destruct (Z.log2_spec (Zpos d) eq_refl) as [_ Hd2]. fold b in Hd2.
  replace (a - b - 1)%Z with (a + - (b + 1))%Z by lia.
  rewrite pow2_add, pow2_opp, (pow2_inject a Ha), (pow2_inject (b + 1)) by lia.
  rewrite Qmake_Qdiv.
  assert (HP : inject_Z (2 ^ a) <= inject_Z n) by (rewrite <- Zle_Qle; exact Hn1).
  assert (HD : inject_Z (Zpos d) <= inject_Z (2 ^ (b + 1))).
  { rewrite <- Zle_Qle. rewrite <- Z.add_1_r in Hd2. lia. }
  assert (HD0 : 0 < inject_Z (Zpos d)) by reflexivity.
  assert (HB0 : 0 < inject_Z (2 ^ (b + 1))) by lra.
  assert (HP0 : 0 <= inject_Z (2 ^ a)).
  { change 0 with (inject_Z 0). rewrite <- Zle_Qle. apply Z.pow_nonneg. lia. }
  set (P := inject_Z (2 ^ a)) in *. set (B := inject_Z (2 ^ (b + 1))) in *.
  set (D := inject_Z (Zpos d)) in *. set (N := inject_Z n) in *.
  apply Qle_shift_div_l; [exact HD0|].
  assert (HT : / B * D <= 1).
  { rewrite Qmult_comm. apply Qle_shift_div_r; [exact HB0|]. lra. }
  assert (P * / B * D <= P * 1).
  { rewrite <- Qmult_assoc. rewrite (Qmult_comm P (/ B * D)), (Qmult_comm P 1).
    apply Qmult_le_compat_r; assumption. }
  lra.
Qed.


Lemma ilog2_lt (x : Q) : 0 < x -> x < pow2 (ilog2 x + 1).
Proof.
  intros Hx. unfold ilog2.
  destruct (Qle_bool _ _) eqn:E.
  - clear E. destruct x as [n d]. cbn [Qnum Qden].
    assert (Hn : (0 < n)%Z).
    { unfold Qlt in Hx. cbn in Hx. lia. }
    set (a := Z.log2 n). set (b := Z.log2 (Zpos d)).
    assert (Ha : (0 <= a)%Z) by apply Z.log2_nonneg.
    assert (Hb : (0 <= b)%Z) by apply Z.log2_nonneg.
    destruct (Z.log2_spec n Hn) as [_ Hn2]. fold a in Hn2.
    destruct (Z.log2_spec (Zpos d) eq_refl) as [Hd1 _]. fold b in Hd1.
    replace (a - b + 1)%Z with ((a + 1) + - b)%Z by lia.
    rewrite pow2_add, pow2_opp, (pow2_inject (a + 1)), (pow2_inject b) by lia.
    rewrite Qmake_Qdiv.
    assert (HN : inject_Z n < inject_Z (2 ^ (a + 1))).
    { rewrite <- Zlt_Qlt. rewrite <- Z.add_1_r in Hn2. exact Hn2. }
    assert (HD : inject_Z (2 ^ b) <= inject_Z (Zpos d)) by (rewrite <- Zle_Qle; exact Hd1).
    assert (HB0 : 0 < inject_Z (2 ^ b)).
    { change 0 with (inject_Z 0). rewrite <- Zlt_Qlt. apply Z.pow_pos_nonneg; lia. }
    assert (HN0 : 0 < inject_Z n).
    { change 0 with (inject_Z 0). rewrite <- Zlt_Qlt. exact Hn. }
    set (P := inject_Z (2 ^ (a + 1))) in *. set (B := inject_Z (2 ^ b)) in *.
    set (D := inject_Z (Zpos d)) in *. set (N := inject_Z n) in *.
    apply Qlt_shift_div_r; [lra|].
    assert (HT : 1 <= / B * D).
    { rewrite Qmult_comm. apply Qle_shift_div_l; [exact HB0|]. lra. }
    assert (P * 1 <= P * / B * D).
    { rewrite <- Qmult_assoc. rewrite (Qmult_comm P (/ B * D)), (Qmult_comm P 1).
      apply Qmult_le_compat_r; [exact HT|lra]. }
    lra.
  - replace (Z.log2 (Qnum x) - Z.log2 (Z.pos (Qden x)) - 1 + 1)%Z
      with (Z.log2 (Qnum x) - Z.log2 (Z.pos (Qden x)))%Z by lia.
    apply Qnot_le_lt. intros H. apply Qle_bool_iff in H. congruence.
Qed.

(** A positive real of the normal range is rounded with a relative error of
    at most [2^-53], unless the result overflows. *)
Lemma round_pos_bounds (x : Q) :
  pow2 (-1022) <= x ->
  match round_pos x with
  | Finite q => x * (1 - eps) <= q /\ q <= x * (1 + eps)
  | PosInf => pow2 1024 <= x * (1 + eps)
  | NegInf => False
  end.
Proof.
  intros Hx.
  assert (Hx0 : 0 < x) by (pose proof (pow2_pos (-1022)); lra).
  unfold round_pos.
  set (e := Z.max (ilog2 x - 52) (-1074)).
  assert (He : pow2 e * (1 # 2) <= x * eps).
  { unfold e, eps. destruct (Z.max_spec (ilog2 x - 52) (-1074)) as [[_ ->]|[_ ->]].
    - assert (pow2 (-1074) * (1 # 2) == pow2 (-1022) * pow2 (-53)) as -> by reflexivity.
      apply Qmult_le_compat_r; [exact Hx|]. apply Qlt_le_weak, pow2_pos.
    - replace (ilog2 x - 52)%Z with (ilog2 x + -52)%Z by lia.
      rewrite pow2_add.
      assert (pow2 (-52) * (1 # 2) == pow2 (-53)) as E by reflexivity.
      rewrite <- Qmult_assoc, E.
      apply Qmult_le_compat_r; [apply ilog2_le; exact Hx0|].
      apply Qlt_le_weak, pow2_pos. }
  pose proof (pow2_pos e) as Hpe.
  destruct (rne_bounds (x / pow2 e)) as [Hlo Hhi].
  set (r := inject_Z (rne (x / pow2 e))) in *.
  assert (Hxe : x / pow2 e * pow2 e == x).
  { unfold Qdiv. rewrite <- Qmult_assoc, (Qmult_comm (/ pow2 e)), Qmult_inv_r; lra. }
  assert (Hv : x - pow2 e * (1 # 2) <= r * pow2 e /\ r * pow2 e <= x + pow2 e * (1 # 2)).
  { split.
    - apply (Qmult_le_compat_r _ _ (pow2 e)) in Hlo; [|lra].
      rewrite <- Hxe at 1. lra.
    - apply (Qmult_le_compat_r _ _ (pow2 e)) in Hhi; [|lra].
      rewrite <- Hxe at 1. lra. }
  destruct (Qle_bool _ _) eqn:E.
  - apply Qle_bool_iff in E. lra.
  - rewrite Qred_correct. lra.
Qed.

Lemma rne_nonneg (y : Q) : 0 <= y -> (0 <= rne y)%Z.
Proof.
  intros Hy. unfold rne.
  assert (H : (0 <= Qfloor y)%Z).
  { change 0%Z with (Qfloor 0). apply Qfloor_resp_le. exact Hy. }
  destruct (Qcompare _ _); [destruct (Z.even _)|..]; lia.
Qed.

Lemma round_pos_sign (x : Q) :
  0 < x ->
  match round_pos x with
  | Finite q => 0 <= q
  | PosInf => True
  | NegInf => False
  end.
Proof.
  intros Hx. unfold round_pos.
  set (e := Z.max (ilog2 x - 52) (-1074)).
  pose proof (pow2_pos e) as Hpe.
  destruct (Qle_bool _ _); [exact I|].
  rewrite Qred_correct. apply Qmult_le_0_compat; [|lra].
  change 0 with (inject_Z 0). rewrite <- Zle_Qle. apply rne_nonneg.
  apply Qle_shift_div_l; lra.
Qed.

(** The rounding of a real that is not positive is not positive. *)
Lemma round_nonpos (x : Q) :
  x <= 0 ->
  match round x with
  | Finite q => q <= 0
  | PosInf => False
  | NegInf => True
  end.
Proof.
  intros Hx. unfold round.
  destruct (Qcompare x 0) eqn:E.
  - lra.
  - apply Qlt_alt in E.
    assert (H : 0 < - x) by lra.
    pose proof (round_pos_sign (- x) H) as Hs.
    destruct (round_pos (- x)); cbn [neg]; try exact I; try contradiction.
    rewrite Qred_correct. lra.
  - apply Qgt_alt in E. lra.
Qed.

Lemma round_of_pos (x : Q) : 0 < x -> round x = round_pos x.
Proof.
  intros Hx. unfold round. apply Qgt_alt in Hx. rewrite Hx. reflexivity.
Qed.

Lemma eps_value : eps == 1 # 9007199254740992.
Proof. reflexivity. Qed.

Lemma pow2_1024_big : 3601 < pow2 1024.
Proof. reflexivity. Qed.

Lemma pow2_min_small : pow2 (-1022) <= 1 # 100000000.
Proof. vm_compute. discriminate. Qed.

Lemma cancel_limit_value :
  tools.cancel_limit = Finite (8444249301460417 # 140737488355328).
Proof. vm_compute. reflexivity. Qed.

Lemma delta_late (td : Z) :
  (3600000001 <= td)%Z -> leb (tools.delta td) tools.cancel_limit = false.
Proof.
  intros Htd. rewrite cancel_limit_value.
  unfold tools.delta, Py.total_seconds, truediv.
  assert (HX : 3600000001 # 1000000 <= inject_Z td / inject_Z 1000000).
  { apply Qle_shift_div_l; [reflexivity|].
    rewrite Zle_Qle in Htd. change (inject_Z 1000000) with (1000000 # 1).
    change (inject_Z 3600000001) with (3600000001 # 1) in Htd. lra. }
  set (X := inject_Z td / inject_Z 1000000) in *.
  pose proof pow2_min_small as Hmin. pose proof eps_value as He.
  rewrite round_of_pos by lra.
  pose proof (round_pos_bounds X ltac:(lra)) as Hb.
  destruct (round_pos X) as [q| |]; [|reflexivity|contradiction].
  cbn [div].
  assert (Hq : 3600 <= q) by (destruct Hb as [Hb _]; rewrite He in Hb; lra).
  assert (Hq60 : 60 <= q / 60) by (apply Qle_shift_div_l; lra).
  rewrite round_of_pos by lra.
  pose proof (round_pos_bounds (q / 60) ltac:(lra)) as Hb2.
  destruct (round_pos (q / 60)) as [q2| |]; [|reflexivity|contradiction].
  cbn [leb].
  destruct (Qle_bool q2 _) eqn:E; [|reflexivity].
  apply Qle_bool_iff in E. exfalso.
  destruct Hb as [Hb _]. destruct Hb2 as [Hb2 _].
  rewrite He in Hb, Hb2.
  assert (Hq' : (3600000001 # 1000000) * (1 - (1 # 9007199254740992)) <= q) by lra.
  assert (Hd : (3600000001 # 60000000) * (1 - (1 # 9007199254740992)) <= q / 60).
  { apply Qle_shift_div_l; lra. }
  lra.
Qed.

Lemma div_nonpos (x : float) :
  match x with Finite q => q <= 0 | PosInf => False | NegInf => True end ->
  match div x 60 with Finite q => q <= 0 | PosInf => False | NegInf => True end.
Proof.
  destruct x as [q| |]; cbn [div]; try tauto.
  intros Hq. apply round_nonpos.
  unfold Qdiv. setoid_replace (q * / 60) with (- ((- q) * / 60)) by ring.
  assert (0 <= - q * / 60) by (apply Qmult_le_0_compat; [lra|discriminate]).
  lra.
Qed.

Lemma delta_in_time (td : Z) :
  (td <= 3600000000)%Z -> leb (tools.delta td) tools.cancel_limit = true.
Proof.
  intros Htd. rewrite cancel_limit_value.
  destruct (Z_le_gt_dec td 0) as [Hneg|Hpos].
  - assert (HX : inject_Z td / inject_Z 1000000 <= 0).
    { apply Qle_shift_div_r; [reflexivity|].
      rewrite Zle_Qle in Hneg. change (inject_Z 0) with 0 in Hneg. lra. }
    pose proof (div_nonpos _ (round_nonpos _ HX)) as H.
    fold (truediv td 1000000) in H. fold (Py.total_seconds td) in H.
    fold (tools.delta td) in H.
    destruct (tools.delta td) as [q| |]; cbn [leb]; try reflexivity; try contradiction.
    apply Qle_bool_iff. lra.
  - unfold tools.delta, Py.total_seconds, truediv.
    assert (HX : (1 # 1000000) <= inject_Z td / inject_Z 1000000
                 /\ inject_Z td / inject_Z 1000000 <= 3600).
    { split.
      - apply Qle_shift_div_l; [reflexivity|].
        assert (H : (1 <= td)%Z) by lia. rewrite Zle_Qle in H.
        change (inject_Z 1000000) with (1000000 # 1).
        change (inject_Z 1) with 1 in H. lra.
      - apply Qle_shift_div_r; [reflexivity|].
        rewrite Zle_Qle in Htd. change (inject_Z 1000000) with (1000000 # 1).
        change (inject_Z 3600000000) with (3600000000 # 1) in Htd. lra. }
    set (X := inject_Z td / inject_Z 1000000) in *.
    pose proof pow2_min_small as Hmin. pose proof eps_value as He.
    pose proof pow2_1024_big as Hbig.
    rewrite round_of_pos by lra.
    pose proof (round_pos_bounds X ltac:(lra)) as Hb.
    destruct (round_pos X) as [q| |]; [|rewrite He in Hb; lra|contradiction].
    cbn [div]. rewrite He in Hb. destruct Hb as [Hb1 Hb2].
    assert (Hq60 : (1 # 100000000) <= q / 60 /\ q / 60 <= 60 * (1 + (1 # 9007199254740992))).
    { split; [apply Qle_shift_div_l|apply Qle_shift_div_r]; lra. }
    rewrite round_of_pos by lra.
    pose proof (round_pos_bounds (q / 60) ltac:(lra)) as Hb.
    destruct (round_pos (q / 60)) as [q2| |]; [|rewrite He in Hb; lra|contradiction].
    cbn [leb]. apply Qle_bool_iff. rewrite He in Hb. lra.
Qed.

(** The comparison [delta <= 60.0 + 1e-9] succeeds exactly on the spans of at
    most sixty minutes: the microsecond after is already refused. *)
Lemma delta_within_iff (td : Z) :
  leb (tools.delta td) tools.cancel_limit = true <-> (td <= 3600000000)%Z.
Proof.
  split.
  - intros H. destruct (Z_le_gt_dec td 3600000000) as [Hle|Hgt]; [exact Hle|].
    rewrite delta_late in H by lia. discriminate.
  - apply delta_in_time.
Qed.

Lemma round_of_neg (x : Q) : x < 0 -> round x = neg (round_pos (- x)).
Proof.
  intros Hx. unfold round. destruct (Qcompare x 0) eqn:E.
  - apply Qeq_alt in E. lra.
  - reflexivity.
  - apply Qgt_alt in E. lra.
Qed.

(** Rounding a real of the normal range that does not overflow: a finite
    float within the relative error [2^-53]. *)
Lemma round_rel (x : Q) :
  pow2 (-1022) <= Qabs x -> Qabs x * (1 + eps) < pow2 1024 ->
  exists q, round x = Finite q /\ Qabs (q - x) <= Qabs x * eps.
Proof.
  intros Hlo Hhi. pose proof (pow2_pos (-1022)) as Hp.
  assert (He : 0 <= eps) by (apply Qlt_le_weak, pow2_pos).
  destruct (Qlt_le_dec 0 x) as [Hx|Hx].
  - assert (Ha : Qabs x == x) by (apply Qabs_pos; lra).
    rewrite Ha in Hlo, Hhi.
    rewrite round_of_pos by exact Hx.
    pose proof (round_pos_bounds x Hlo) as Hb.
    destruct (round_pos x) as [q| |]; [|lra|contradiction].
    exists q. split; [reflexivity|]. rewrite Ha.
    apply Qabs_Qle_condition. lra.
  - assert (Ha : Qabs x == - x) by (apply Qabs_neg; exact Hx).
    rewrite Ha in Hlo, Hhi.
    rewrite round_of_neg by lra.
    pose proof (round_pos_bounds (- x) Hlo) as Hb.
    destruct (round_pos (- x)) as [q| |]; [|lra|contradiction].
    cbn [neg]. exists (Qred (- q)). split; [reflexivity|].
    rewrite Qred_correct, Ha. apply Qabs_Qle_condition. lra.
Qed.

(** [delta] is the elapsed minutes up to a relative error of [2^-51], on
    every span that two datetimes can be apart. *)
Lemma delta_accurate (td : Z) :
  (Z.abs td <= 1000000000000000000)%Z ->
  exists q, tools.delta td = Finite q /\
            Qabs (q - elapsed_minutes td)
            <= Qabs (elapsed_minutes td) * (1 # 2251799813685248).
Proof.
  intros Htd. unfold tools.delta, Py.total_seconds, truediv, elapsed_minutes.
  destruct (Z.eq_dec td 0) as [->|Hnz].
  - exists 0. split; [vm_compute; reflexivity|]. vm_compute. discriminate.
  - set (T := inject_Z td).
    assert (HT : 1 <= Qabs T /\ Qabs T <= 1000000000000000000).
    { change (Qabs T) with (inject_Z (Z.abs td)).
      change 1 with (inject_Z 1).
      change 1000000000000000000 with (inject_Z 1000000000000000000).
      rewrite <- !Zle_Qle. lia. }
    change (inject_Z 1000000) with 1000000.
    pose proof pow2_min_small as Hmin. pose proof eps_value as He.
    assert (Hbig : 1000000000000000001 < pow2 1024) by reflexivity.
    assert (Hx : T / 1000000 * 1000000 == T) by field.
    assert (Hm : T / 60000000 * 60 == T / 1000000) by field.
    set (x := T / 1000000) in *. set (m := T / 60000000) in *.
    assert (Hax : Qabs x * 1000000 == Qabs T).
    { rewrite <- Hx. rewrite Qabs_Qmult. reflexivity. }
    assert (Ham : Qabs m * 60 == Qabs x).
    { rewrite <- Hm. rewrite Qabs_Qmult. reflexivity. }
    destruct (round_rel x) as [q1 [Hr1 Hq1]]; [lra|rewrite He; lra|].
    rewrite Hr1. cbn [div].
    assert (Hz : q1 / 60 * 60 == q1) by field.
    set (z := q1 / 60) in *.
    rewrite He in Hq1. apply Qabs_Qle_condition in Hq1.
    pose proof (Qabs_nonneg x) as Hx0. pose proof (Qabs_nonneg m) as Hm0.
    assert (Hzm : Qabs (z - m) <= Qabs m * (1 # 9007199254740992)).
    { apply Qabs_Qle_condition. lra. }
    assert (Haz : Qabs m * (1 - (1 # 9007199254740992)) <= Qabs z
                  /\ Qabs z <= Qabs m * (1 + (1 # 9007199254740992))).
    { pose proof (Qabs_triangle_reverse z (z - m)) as H1.
      pose proof (Qabs_triangle_reverse m (m - z)) as H2.
      pose proof (Qabs_triangle (z - m) m) as H3.
      setoid_replace (z - (z - m)) with m in H1 by ring.
      setoid_replace (m - (m - z)) with z in H2 by ring.
      setoid_replace (z - m + m) with z in H3 by ring.
      rewrite (Qabs_Qminus m z) in H2.
      pose proof (Qabs_nonneg (z - m)). split; lra. }
    destruct (round_rel z) as [q2 [Hr2 Hq2]]; [lra|rewrite He; lra|].
    exists q2. split; [exact Hr2|].
    rewrite He in Hq2.
    pose proof (Qabs_triangle (q2 - z) (z - m)) as Ht.
    setoid_replace (q2 - z + (z - m)) with (q2 - m) in Ht by ring.
    lra.
Qed.

End Rounding.

(* --------------------------------------------------------------------- *)
(** ** The sixty-minute rule *)
(* --------------------------------------------------------------------- *)

(** With keys that are pairwise distinct, the first entry that carries the
    key of [o] is [o]. *)
Lemma find_unique_key {A : Type} (key : A -> str) (l : list A) (o : A) :
  NoDup (List.map key l) -> In o l ->
  find (fun o' => Text.eqb (key o') (key o)) l = Some o.
Proof.
  intros Hnd Hin. induction l as [|x l IH]; [contradiction|].
  cbn [find]. destruct (Text.eqb (key x) (key o)) eqn:E.
  - apply eqb_eq in E. f_equal.
    apply (NoDup_map_eq key (x :: l)); auto. left. reflexivity.
  - destruct Hin as [->|Hin].
    + rewrite eqb_refl in E. discriminate.
    + apply IH; [|exact Hin]. inversion Hnd. assumption.
Qed.

Lemma order_of_In {L : Lib} (w : tools.World) (p : str) (o : tools.Order) :
  order_of w p = Some o -> In o (tools.orders_json w).
Proof.
  unfold order_of, tools.order_lookup.
  destruct (oid p); [|discriminate]. destruct (email_of p); [|discriminate].
  destruct (_ && _); [|discriminate].
  intros H. apply find_some in H. tauto.
Qed.

(** What the cancellation check answers once its timestamps are read. *)
Lemma order_cancel_decision {L : Lib} (w : tools.World) (o : tools.Order)
    (created now : datetime) (td : Z) :
  find (fun o' => Text.eqb (lower (tools.order_id o')) (lower (tools.order_id o)))
    (tools.orders_json w) = Some o ->
  tools.parse_iso (tools.created_at o) = Ok created ->
  tools.utcnow w = Ok now ->
  sub_datetime now created = Ok td ->
  tools.order_cancel w (tools.order_id o) None
  = Ok {| tools.cancel_allowed := (td <=? 3600000000)%Z;
          tools.reason :=
            (if (td <=? 3600000000)%Z then u "within_60_min (" else u ">60 min (")
            ++ Float64.format_1f (tools.delta td) ++ u " min)" |}.
Proof.
  intros Hf Hc Hn Hs. unfold tools.order_cancel.
  rewrite Hf, Hc. cbn [bind]. rewrite Hn. cbn [bind]. rewrite Hs. cbn [bind].
  destruct (Z.leb_spec td 3600000000) as [H|H].
  - rewrite (proj2 (delta_within_iff td) H). reflexivity.
  - rewrite delta_late by lia. reflexivity.
Qed.

Lemma elapsed_minutes_le (td : Z) :
  (elapsed_minutes td <= 60)%Q <-> (td <= 3600000000)%Z.
Proof.
  unfold elapsed_minutes. rewrite Zle_Qle.
  change (inject_Z 3600000000) with (3600000000 # 1)%Q.
  split; intros H.
  - assert (E : (inject_Z td == inject_Z td / 60000000 * 60000000)%Q) by (field).
    rewrite E. lra.
  - apply Qle_shift_div_r; [reflexivity|]. lra.
Qed.

(** C1 (amended). In deterministic mode, for an order found by the lookup in
    an order book whose ids are distinct, once both timestamps are read and
    subtracted, the run ends with a decision that allows the cancellation
    exactly when the elapsed minutes are at most 60; the reason is
    "within_60_min (" or ">60 min (" followed by the elapsed minutes to one
    decimal and " min)", the minutes being those of the binary64 quotient,
    which is the real quotient up to a relative error of 2^-51.  Sixty
    minutes exactly are allowed, 60.000001 minutes are refused. *)
Theorem cancellation_window {L : Lib} (w : tools.World) (m : LLM) (p : str)
    (o : tools.Order) (created now : datetime) (td : Z) :
  use_llm w = false ->
  classify p = order_help ->
  order_of w p = Some o ->
  NoDup (List.map (fun o' => lower (tools.order_id o')) (tools.orders_json w)) ->
  tools.parse_iso (tools.created_at o) = Ok created ->
  tools.utcnow w = Ok now ->
  sub_datetime now created = Ok td ->
  (exists out d,
     invoke w m (initial_state p) = Ok out /\
     policy_decision out = Some (Some d) /\
     (tools.cancel_allowed d = true <-> (elapsed_minutes td <= 60)%Q) /\
     tools.reason d
     = (if tools.cancel_allowed d then u "within_60_min (" else u ">60 min (")
       ++ Float64.format_1f (tools.delta td) ++ u " min)") /\
  ((Z.abs td <= 1000000000000000000)%Z ->
   exists q, tools.delta td = Float64.Finite q /\
             (Qabs (q - elapsed_minutes td)
              <= Qabs (elapsed_minutes td) * (1 # 2251799813685248))%Q) /\
  Float64.leb (tools.delta 3600000000) tools.cancel_limit = true /\
  Float64.leb (tools.delta 3600000060) tools.cancel_limit = false.
Proof.
  intros det Hc Ho Hnd Hcr Hnow Hsub.
  split; [|split; [apply delta_accurate|
                   split; [apply delta_within_iff; lia|apply delta_late; lia]]].
  rewrite (invoke_order w m det p Hc), Ho.
  rewrite (order_cancel_decision w o created now td); try assumption.
  - cbn [bind]. eexists. eexists. split; [reflexivity|].
    split; [reflexivity|]. cbn [tools.cancel_allowed tools.reason].
    split; [|reflexivity].
    rewrite elapsed_minutes_le. apply Z.leb_le.
  - apply (find_unique_key (fun o' => lower (tools.order_id o'))); [exact Hnd|].
    eapply order_of_In. exact Ho.
Qed.

Lemma sample_ids_unique :
  NoDup (List.map (fun o' => lower (Lib := AsciiLib.lib) (tools.order_id o'))
           (tools.orders_json Sample.world_allowed)).
Proof.
  repeat (constructor; [vm_compute; intuition discriminate|]). constructor.
Defined.

Lemma cancellation_window_witness :
  (exists out d,
     invoke (L := AsciiLib.lib) Sample.world_allowed Sample.no_llm
       (initial_state Sample.cancel_A1003_prompt) = Ok out /\
     policy_decision out = Some (Some d) /\
     (tools.cancel_allowed d = true <-> (elapsed_minutes 2700000000 <= 60)%Q) /\
     tools.reason d
     = (if tools.cancel_allowed d then u "within_60_min (" else u ">60 min (")
       ++ Float64.format_1f (tools.delta 2700000000) ++ u " min)") /\
  ((Z.abs 2700000000 <= 1000000000000000000)%Z ->
   exists q, tools.delta 2700000000 = Float64.Finite q /\
             (Qabs (q - elapsed_minutes 2700000000)
              <= Qabs (elapsed_minutes 2700000000) * (1 # 2251799813685248))%Q) /\
  Float64.leb (tools.delta 3600000000) tools.cancel_limit = true /\
  Float64.leb (tools.delta 3600000060) tools.cancel_limit = false.
Proof.
  apply (cancellation_window (L := AsciiLib.lib) Sample.world_allowed Sample.no_llm
           Sample.cancel_A1003_prompt Sample.order_A1003
           {| wall_us := 63892842900000000%Z; utcoffset := Some 0%Z |}
           {| wall_us := 63892845600000000%Z; utcoffset := Some 0%Z |}
           2700000000%Z).
  - reflexivity.
  - vm_compute. reflexivity.
  - vm_compute. reflexivity.
  - exact sample_ids_unique.
  - vm_compute. reflexivity.
  - vm_compute. reflexivity.
  - vm_compute. reflexivity.
Defined.

(** C1 as stated fails on the denial text: the reason of a refusal reads
    ">60 min (...)", in which "> 60 min" does not occur. *)
Lemma denial_reason_counterexample :
  exists r d,
    run_agent (L := AsciiLib.lib) Sample.world_blocked Sample.no_llm
      Sample.cancel_A1002_prompt = Ok r /\
    trace_policy_decision (trace r) = Some d /\
    tools.cancel_allowed d = false /\
    tools.reason d = u ">60 min (125.0 min)" /\
    contains (u "> 60 min") (tools.reason d) = false.
Proof.
  eexists. eexists. split; [vm_compute; reflexivity|].
  split; [reflexivity|]. repeat split; vm_compute; reflexivity.
Qed.

(* --------------------------------------------------------------------- *)
(** ** A malformed timestamp override *)
(* --------------------------------------------------------------------- *)


(** An empty override counts as no override: the system clock is read. *)
Lemma empty_override_reads_clock {L : Lib} (w : tools.World) :
  tools.getenv w (u "NOW_ISO") = Some [] ->
  tools.utcnow w = Ok {| wall_us := tools.clock_us w; utcoffset := Some 0 |}.
Proof. intros H. unfold tools.utcnow. rewrite H. reflexivity. Qed.



